(** * futaba: the event journal sinks and the alias cog

    A shallow embedding of
    - [futaba/journal/impl/channel_output.py]  (the [ICONS] table and
      [ChannelOutputListener]),
    - [futaba/journal/impl/direct_message.py]  ([DirectMessageListener]),
    - [futaba/cogs/info/alias.py]              ([EXTENSION_REGEX],
      [MemberChanges], [Alias.member_update], [Alias.add_alt],
      [Alias.del_alt_chain]),
    followed by the properties of the journal that hold of that code.

    Conventions.
    - A Python [str] is a [string] holding its UTF-8 bytes; every literal of
      the sources is ASCII except the glyphs of [ICONS].
    - A Python [dict] with string keys is a [gmap string PyVal].
    - A coroutine is a computation in the monad [M]: it takes the state of
      the outside world, returns normally or raises, and leaves a new world.
      Calls to [logger] leave no trace in the world and are omitted, and a
      send to a channel or a user always arrives.
    - The [aliases] command of the cog hands nothing to the journal and is
      left out; so are the permission decorators of the commands. *)

From Stdlib Require Import Ascii String NArith List Lia.
From stdpp Require Import base option list gmap strings fin_maps.

Local Open Scope string_scope.

(** ** The discord data model the journal touches *)

Record Channel := mkChannel { channel_id : N }.

Record Guild := mkGuild {
  guild_id : N;
  guild_name : string;
  guild_channels : list Channel
}.

Record Member := mkMember {
  member_id : N;
  member_name : string;
  member_nick : option string;
  member_avatar : option string;
  member_avatar_url : string;
  member_mention : string;
  member_guild : Guild
}.

(** [discord.File]: a filename and a handle [fp] on a readable stream that
    lives in the world. *)
Record File := mkFile { fp : nat; filename : option string }.

Record Embed := mkEmbed { colour : N; description : option string }.

(** [MemberChanges] of alias.py: three slots, each [None] until set. *)
Record MemberChanges := mkMemberChanges {
  avatar_url : option string;
  username : option string;
  nickname : option string
}.

#[global] Instance Channel_eq_dec : EqDecision Channel.
Proof. solve_decision. Defined.

(** ** Python values, exceptions and results *)

#[warnings="-register-all"]
Inductive PyVal :=
  | VNone
  | VStr (s : string)
  | VBytes (b : list Byte.byte)
  | VEmbed (e : Embed)
  | VFile (f : File)
  | VMember (m : Member)
  | VChanges (c : MemberChanges)
  | VList (l : list PyVal).

Inductive PyExn :=
  | KeyError (key : PyVal)
  | TypeError (msg : string)
  | AttributeError (msg : string)
  | ValueError (msg : string).

Inductive Result (A : Type) :=
  | Ok (a : A)
  | Raise (e : PyExn).
Arguments Ok {A} a.
Arguments Raise {A} e.

(** Lists are the only unhashable values among [PyVal]. *)
Definition hashable (v : PyVal) : bool :=
  match v with VList _ => false | _ => true end.

(** Iteration ([iter(v)]): lists yield their items, strings their
    characters, nothing else here is iterable. *)
Definition py_iter (v : PyVal) : Result (list PyVal) :=
  match v with
  | VList l => Ok l
  | VStr s => Ok ((fun c => VStr (String c EmptyString)) <$> list_ascii_of_string s)
  | _ => Raise (TypeError "object is not iterable")
  end.

(** ** The world and the monad of coroutines *)

(** An [io.BytesIO]-like stream: its bytes and the read position. *)
Record Stream := mkStream { data : list Byte.byte; pos : nat }.

Inductive Dest :=
  | ToChannel (c : Channel)
  | ToUser (u : Member).

(** One call of [send] on a destination, with its keyword arguments. *)
Record Message := mkMessage { dest : Dest; kwargs : gmap string PyVal }.

Inductive SqlOp :=
  | AddAvatar (m : Member) (timestamp : N) (avatar : PyVal) (ext : string)
  | AddUsername (m : Member) (timestamp : N) (name : string)
  | AddNickname (m : Member) (timestamp : N) (nick : string)
  | AddPossibleAlt (g : Guild) (first second : option Member)
  | AllDeletePossibleAlts (g : Guild) (u : Member).

(** One call of [journal.send]: subpath, guild, content and the keyword
    attributes. *)
Record JournalSend := mkJournalSend {
  js_subpath : string;
  js_guild : option Guild;
  js_content : string;
  js_attributes : gmap string PyVal
}.

Inductive Reaction := SUCCESS | FAIL.

Record World := mkWorld {
  streams : list Stream;           (* the streams behind every [File.fp] *)
  outbox : list Message;           (* messages sent so far, oldest first *)
  sql_log : list SqlOp;            (* writes to the database, oldest first *)
  journal_log : list JournalSend;  (* events handed to the journal *)
  reactions : list (N * Reaction)  (* reactions added to messages *)
}.

Definition M (A : Type) : Type := World -> Result A * World.

Definition ret {A} (a : A) : M A := fun w => (Ok a, w).
Definition raise {A} (e : PyExn) : M A := fun w => (Raise e, w).
Definition bind {A B} (m : M A) (k : A -> M B) : M B :=
  fun w => match m w with
           | (Ok a, w') => k a w'
           | (Raise e, w') => (Raise e, w')
           end.
Definition lift {A} (r : Result A) : M A := fun w => (r, w).

Declare Scope py_scope.
Delimit Scope py_scope with py.
Notation "x <- m ;; k" := (bind m (fun x => k))
  (at level 100, m at next level, right associativity) : py_scope.
Notation "m ;;; k" := (bind m (fun _ => k))
  (at level 100, right associativity) : py_scope.
Local Open Scope py_scope.

Fixpoint mapM {A B} (f : A -> M B) (l : list A) : M (list B) :=
  match l with
  | [] => ret []
  | x :: l' => y <- f x ;; ys <- mapM f l' ;; ret (y :: ys)
  end.

Definition set_outbox (o : list Message) (w : World) : World :=
  mkWorld (streams w) o (sql_log w) (journal_log w) (reactions w).
Definition set_streams (s : list Stream) (w : World) : World :=
  mkWorld s (outbox w) (sql_log w) (journal_log w) (reactions w).
Definition set_sql_log (s : list SqlOp) (w : World) : World :=
  mkWorld (streams w) (outbox w) s (journal_log w) (reactions w).
Definition set_journal_log (j : list JournalSend) (w : World) : World :=
  mkWorld (streams w) (outbox w) (sql_log w) j (reactions w).
Definition set_reactions (r : list (N * Reaction)) (w : World) : World :=
  mkWorld (streams w) (outbox w) (sql_log w) (journal_log w) r.

(** [await dest.send(...)] with keyword arguments [kw] *)
Definition send (d : Dest) (kw : gmap string PyVal) : M unit :=
  fun w => (Ok tt, set_outbox (outbox w ++ [mkMessage d kw]) w).

Definition empty_world : World := mkWorld [] [] [] [] [].

(** ** journal/impl/channel_output.py *)

Module ChannelOutput.

Definition ICONS : gmap string string := list_to_map [
    (* Logging levels *)
    ("info", "ℹ");
    ("idea", "💡");
    ("warning", "⚠");
    ("error", "❌");
    ("forbidden", "⛔");
    ("critical", "🆘");
    ("ok", "🆗");
    ("announce", "📣");
    (* Moderation *)
    ("ban", "🔨");
    ("kick", "👢");
    ("muffled", "😷");
    ("mute", "🙊");
    ("jail", "🚨");
    (* Filter *)
    ("flag", "🚩");
    ("deleted", "💀");
    ("nsfw", "🔞");
    (* Mail *)
    ("has-mail", "📬");
    ("no-mail", "📪");
    (* Watchdog *)
    ("investigate", "🕵");
    ("watch", "👁");
    (* Configuration *)
    ("edit", "📝");
    ("save", "💾");
    ("writing", "✍");
    ("settings", "🛠");
    (* Development *)
    ("deploy", "🚀");
    ("package", "📦");
    ("script", "📜");
    (* Security *)
    ("key", "🔑");
    ("lock", "🔒");
    ("unlock", "🔓");
    (* Documents *)
    ("folder", "📂");
    ("file", "📄");
    ("book", "📔");
    ("upload", "📤");
    ("download", "📥");
    ("bookmark", "🔖");
    ("journal", "📒");
    ("attachment", "📎");
    ("clipboard", "📋");
    ("pin", "📌");
    ("briefcase", "💼");
    ("cabinet", "🗃");
    ("trash", "🗑");
    (* Miscellaneous *)
    ("hourglass", "⏳");
    ("person", "👤");
    ("navigate", "🧭");
    ("bot", "🤖");
    ("news", "📰");
    ("art", "🎨");
    ("tag", "🎫");
    ("music", "🎵");
    ("link", "🔗");
    ("alert", "🔔");
    ("game", "🎮");
    ("search", "🔍");
    ("bomb", "💣");
    ("gift", "🎁");
    ("celebration", "🎉");
    ("international", "🌐");
    ("award", "🏆");
    ("luck", "🍀")
  ].

(** [ICONS[icon]] *)
Definition ICONS_getitem (icon : PyVal) : Result string :=
  if hashable icon then
    match icon with
    | VStr name =>
        match ICONS !! name with
        | Some glyph => Ok glyph
        | None => Raise (KeyError icon)
        end
    | _ => Raise (KeyError icon)
    end
  else Raise (TypeError "unhashable type").

(** The state [__init__] sets up: [path], [recursive] and the optional
    [filter] argument go to the base class [Listener], [channel] stays here. *)
Record ChannelOutputListener := mkChannelOutputListener {
  path : string;
  channel : Channel;
  recursive : bool;
  user_filter :
    option (string -> option Guild -> string -> gmap string PyVal -> Result bool)
}.

(** [guild.channels], which fails on [None]. *)
Definition getattr_channels (guild : option Guild) : Result (list Channel) :=
  match guild with
  | Some g => Ok (guild_channels g)
  | None => Raise (AttributeError "'NoneType' object has no attribute 'channels'")
  end.

Definition filter (self : ChannelOutputListener) (path : string)
    (guild : option Guild) (content : string)
    (attributes : gmap string PyVal) : Result bool :=
  match getattr_channels guild with
  | Raise e => Raise e
  | Ok channels =>
      if negb (bool_decide (channel self ∈ channels)) then Ok false
      else Ok true
  end.

Definition handle (self : ChannelOutputListener) (path : string)
    (guild : option Guild) (content : string)
    (attributes : gmap string PyVal) : M unit :=
  let icon := default VNone (attributes !! "icon") in
  content <- match icon with
             | VNone => ret content
             | _ => glyph <- lift (ICONS_getitem icon) ;;
                    ret (glyph ++ " " ++ content)
             end ;;
  send (ToChannel (channel self)) {[ "content" := VStr content ]}.

End ChannelOutput.

(** ** journal/impl/direct_message.py *)

Module DirectMessage.

(** [fp.read()]: the bytes from the read position on; the stream is left at
    its end. A handle without a stream behind it is a closed file. *)
Definition read (h : nat) : M (list Byte.byte) :=
  fun w =>
    match streams w !! h with
    | Some s =>
        (Ok (drop (pos s) (data s)),
         set_streams (<[h := mkStream (data s) (length (data s))]> (streams w)) w)
    | None => (Raise (ValueError "I/O operation on closed file"), w)
    end.

(** Modelled from the spec: [futaba.utils.copy_discord_file] is imported by
    direct_message.py but its module is not among the sources. The spec says
    the duplication step "materializes the source bytes and wraps them in a
    new, independent readable handle per destination, preserving the
    original filename": the whole buffer of the source stream is copied
    into a fresh stream positioned at its start, and the source stream is
    left as it was. Anything but a [discord.File] has no [fp]. *)
Definition copy_discord_file (file : PyVal) : M PyVal :=
  match file with
  | VFile f =>
      fun w =>
        match streams w !! fp f with
        | Some s =>
            (Ok (VFile (mkFile (length (streams w)) (filename f))),
             set_streams (streams w ++ [mkStream (data s) 0]) w)
        | None => (Raise (ValueError "I/O operation on closed file"), w)
        end
  | _ => raise (AttributeError "object has no attribute 'fp'")
  end.

Record DirectMessageListener := mkDirectMessageListener {
  path : string;
  user : Member;
  recursive : bool
}.

Definition handle (self : DirectMessageListener) (path : string)
    (guild : option Guild) (content : string)
    (attributes : gmap string PyVal) : M unit :=
  let content :=
    match guild with
    | Some g => "[" ++ guild_name g ++ "] " ++ content
    | None => content
    end in
  let kwargs : gmap string PyVal := {[ "content" := VStr content ]} in
  kwargs <- match attributes !! "embed" with
            | Some v => ret (<[ "embed" := v ]> kwargs)
            | None => ret kwargs
            end ;;
  kwargs <- match attributes !! "file" with
            | Some v => f <- copy_discord_file v ;;
                        ret (<[ "file" := f ]> kwargs)
            | None => ret kwargs
            end ;;
  kwargs <- match attributes !! "files" with
            | Some v => items <- lift (py_iter v) ;;
                        fs <- mapM copy_discord_file items ;;
                        ret (<[ "files" := VList fs ]> kwargs)
            | None => ret kwargs
            end ;;
  send (ToUser (user self)) kwargs.

End DirectMessage.

(** ** The router and the listener base class *)

Module Journal.

(** A registered listener, as the router sees it. *)
Record Listener := mkListener {
  l_path : string;
  l_recursive : bool;
  l_filter : string -> option Guild -> string -> gmap string PyVal -> Result bool;
  l_handle : string -> option Guild -> string -> gmap string PyVal -> M unit
}.

(** Modelled from the spec: the router (journal/router.py) is not among the
    sources. Matching Rule of the spec: "listener L matches event path P iff
    L.path == P, OR L.recursive is true AND P starts with L.path followed by
    a [/] separator". *)
Definition matches (lpath : string) (lrecursive : bool) (p : string) : bool :=
  String.eqb lpath p || (lrecursive && String.prefix (lpath ++ "/") p).

(** What became of an event at one listener. *)
Inductive Outcome :=
  | NoMatch
  | Rejected
  | FilterFailed (e : PyExn)
  | Delivered
  | HandlerFailed (e : PyExn).

(** Modelled from the spec: the dispatch of the router (journal/router.py,
    not among the sources), for one listener. Dispatch algorithm of the
    spec: the filter of a matching listener is evaluated; "a filter that
    raises is treated as reject and the error is logged"; the handler of a
    listener whose filter accepted is invoked, and "any handler failure is
    caught at the per-listener boundary, logged, and otherwise swallowed". *)
Definition dispatch (l : Listener) (path : string) (guild : option Guild)
    (content : string) (attributes : gmap string PyVal) : M Outcome :=
  if matches (l_path l) (l_recursive l) path then
    match l_filter l path guild content attributes with
    | Ok true =>
        fun w =>
          match l_handle l path guild content attributes w with
          | (Ok _, w') => (Ok Delivered, w')
          | (Raise e, w') => (Ok (HandlerFailed e), w')
          end
    | Ok false => ret Rejected
    | Raise e => ret (FilterFailed e)
    end
  else ret NoMatch.

(** Modelled from the spec: [Router.publish] (journal/router.py, not among
    the sources) "delivers the event to every currently-registered listener
    whose path matches"; the handlers run here in registration order. *)
Definition publish (listeners : list Listener) (path : string)
    (guild : option Guild) (content : string)
    (attributes : gmap string PyVal) : M (list Outcome) :=
  mapM (fun l => dispatch l path guild content attributes) listeners.

(** Modelled from the spec: the base class [Listener] (journal/listener.py)
    that receives the [filter] argument of [ChannelOutputListener.__init__]
    is not among the sources. The spec says the sink holds "an optional
    user-supplied filter composed with the mandatory scope filter", and that
    the scope filter is "mandatory, always applied before any user filter". *)
Definition check (self : ChannelOutput.ChannelOutputListener) (path : string)
    (guild : option Guild) (content : string)
    (attributes : gmap string PyVal) : Result bool :=
  match ChannelOutput.filter self path guild content attributes with
  | Ok true =>
      match ChannelOutput.user_filter self with
      | Some f => f path guild content attributes
      | None => Ok true
      end
  | r => r
  end.

Definition channel_listener (self : ChannelOutput.ChannelOutputListener) : Listener :=
  mkListener (ChannelOutput.path self) (ChannelOutput.recursive self)
             (check self) (ChannelOutput.handle self).

Definition dm_listener (self : DirectMessage.DirectMessageListener) : Listener :=
  mkListener (DirectMessage.path self) (DirectMessage.recursive self)
             (fun _ _ _ _ => Ok true) (DirectMessage.handle self).

End Journal.

(** ** cogs/info/alias.py *)

Module Alias.

(** *** The fragment of Python's [re] that [EXTENSION_REGEX] is written in *)

Inductive CharClass :=
  | Lit (c : ascii)            (* an escaped or plain character *)
  | Range (lo hi : ascii)      (* [lo-hi] *)
  | AnyChar.                   (* [.]: anything but a newline *)

Inductive Node :=
  | One (c : CharClass)
  | Plus (c : CharClass)       (* [c+], greedy *)
  | GroupOpen
  | GroupClose
  | EndAnchor.                 (* [$] *)

Definition newline : ascii := ascii_of_nat 10.

Definition class_ok (cl : CharClass) (c : ascii) : bool :=
  match cl with
  | Lit x => Ascii.eqb x c
  | Range lo hi => (nat_of_ascii lo <=? nat_of_ascii c)%nat
                   && (nat_of_ascii c <=? nat_of_ascii hi)%nat
  | AnyChar => negb (Ascii.eqb c newline)
  end.

(** Where group 1 was opened, and its span once closed. *)
Record Caps := mkCaps { opened : option nat; group1 : option (nat * nat) }.

(** Backtracking match of the nodes [r] against the rest [s] of the
    subject, [i] characters into it. [$] matches at the end of the string
    and just before a newline that ends it (no MULTILINE). On the UTF-8
    bytes of a string the pattern below matches exactly when it matches on
    its code points: no byte of a character beyond ASCII is a full stop, a
    question mark, a newline or a letter. *)
Fixpoint match_here (r : list Node) : string -> nat -> Caps -> option Caps :=
  match r with
  | [] => fun _ _ caps => Some caps
  | One cl :: r' =>
      fun s i caps =>
        match s with
        | String c s' => if class_ok cl c then match_here r' s' (S i) caps else None
        | EmptyString => None
        end
  | Plus cl :: r' =>
      let fix more (s : string) (i : nat) (caps : Caps) : option Caps :=
        match s with
        | String c s' =>
            if class_ok cl c then
              match more s' (S i) caps with
              | Some res => Some res
              | None => match_here r' s i caps
              end
            else match_here r' s i caps
        | EmptyString => match_here r' s i caps
        end in
      fun s i caps =>
        match s with
        | String c s' => if class_ok cl c then more s' (S i) caps else None
        | EmptyString => None
        end
  | GroupOpen :: r' =>
      fun s i caps => match_here r' s i (mkCaps (Some i) (group1 caps))
  | GroupClose :: r' =>
      fun s i caps =>
        match_here r' s i
          (mkCaps (opened caps) ((fun o => (o, i)) <$> opened caps))
  | EndAnchor :: r' =>
      fun s i caps =>
        match s with
        | EmptyString => match_here r' s i caps
        | String c EmptyString =>
            if Ascii.eqb c newline then match_here r' s i caps else None
        | _ => None
        end
  end.

(** [pattern.match(s)]: the match is tried at the start of [s] only. The
    result is the text of group 1. *)
Definition re_match (r : list Node) (s : string) : option string :=
  match match_here r s 0 (mkCaps None None) with
  | Some caps =>
      match group1 caps with
      | Some (a, b) => Some (substring a (b - a) s)
      | None => Some EmptyString
      end
  | None => None
  end.

(** [re.compile(r'\.([a-z]+)\?.+$')] *)
Definition EXTENSION_REGEX : list Node :=
  [ One (Lit ".");
    GroupOpen; Plus (Range "a" "z"); GroupClose;
    One (Lit "?");
    Plus AnyChar;
    EndAnchor ].

(** *** MemberChanges *)

(** [MemberChanges.__bool__] *)
Definition MemberChanges_bool (c : MemberChanges) : bool :=
  bool_decide (is_Some (avatar_url c))
  || bool_decide (is_Some (username c))
  || bool_decide (is_Some (nickname c)).

(** *** The cog *)

(** [ctx] of a command restricted to guilds: where it was invoked. *)
Record Context := mkContext {
  ctx_guild : Guild;
  ctx_channel : Channel;
  ctx_message : N
}.

(** What was written to a [StringBuilder], in order. *)
Inductive SbOp :=
  | SbWrite (text : string)
  | SbWriteln (text : string).

(** [discord.Colour.dark_red()] *)
Definition dark_red : N := 0x992d22.

Section Cog.

(** Helpers that alias.py imports from modules that are not among the
    sources. *)
Variable download_link : string -> Result PyVal.
Variable user_discrim : Member -> string.
Variable find_user : string -> Guild -> option Member.
(** [str(sb)] and [bool(sb)] of a [StringBuilder] after the given writes;
    [sep] is the keyword argument of its constructor, [None] when it was
    left to its default. *)
Variable StringBuilder_str : option string -> list SbOp -> string.
Variable StringBuilder_bool : option string -> list SbOp -> bool.

Definition sql (op : SqlOp) : M unit :=
  fun w => (Ok tt, set_sql_log (sql_log w ++ [op]) w).

(** [self.journal.send(subpath, guild, content, ...)] *)
Definition journal_send (subpath : string) (guild : option Guild)
    (content : string) (attributes : gmap string PyVal) : M unit :=
  fun w =>
    (Ok tt,
     set_journal_log
       (journal_log w ++ [mkJournalSend subpath guild content attributes]) w).

Definition ctx_send (ctx : Context) (kw : gmap string PyVal) : M unit :=
  send (ToChannel (ctx_channel ctx)) kw.

Definition reaction_add (r : Reaction) (message : N) : M unit :=
  fun w => (Ok tt, set_reactions (reactions w ++ [(message, r)]) w).

(** [timestamp] is what [datetime.now()] returns. *)
Definition member_update (timestamp : N) (before after : Member) : M unit :=
  let changes := mkMemberChanges None None None in
  let changes :=
    if bool_decide (member_avatar before <> member_avatar after)
    then mkMemberChanges (Some (member_avatar_url after))
                         (username changes) (nickname changes)
    else changes in
  let changes :=
    if bool_decide (member_name before <> member_name after)
    then mkMemberChanges (avatar_url changes)
                         (Some (member_name after)) (nickname changes)
    else changes in
  let changes :=
    if bool_decide (member_nick before <> member_nick after)
       && bool_decide (member_nick after <> None)
    then mkMemberChanges (avatar_url changes) (username changes)
                         (member_nick after)
    else changes in
  (* Check if there were any changes *)
  if negb (MemberChanges_bool changes) then ret tt
  else
    avatar <- match avatar_url changes with
              | Some url =>
                  avatar <- lift (download_link url) ;;
                  match re_match EXTENSION_REGEX url with
                  | None =>
                      raise (ValueError
                        ("Avatar URL does not match extension regex: " ++ url))
                  | Some avatar_ext => ret (Some (avatar, avatar_ext))
                  end
              | None => ret None
              end ;;
    (* with self.bot.sql.transaction(): *)
    attrs <- match avatar_url changes, avatar with
             | Some url, Some (avatar, avatar_ext) =>
                 sql (AddAvatar before timestamp avatar avatar_ext) ;;;
                 ret [SbWrite ("avatar: " ++ url)]
             | _, _ => ret []
             end ;;
    attrs <- match username changes with
             | Some name =>
                 sql (AddUsername before timestamp name) ;;;
                 ret (attrs ++ [SbWrite ("name: " ++ name)])%list
             | None => ret attrs
             end ;;
    attrs <- match nickname changes with
             | Some nick =>
                 sql (AddNickname before timestamp nick) ;;;
                 ret (attrs ++ [SbWrite ("nick: " ++ nick)])%list
             | None => ret attrs
             end ;;
    let content := "Member " ++ user_discrim before ++ " was updated: "
                   ++ StringBuilder_str (Some ", ") attrs in
    journal_send "member/update" (Some (member_guild before)) content
      (<[ "icon" := VStr "person" ]>
       (<[ "before" := VMember before ]>
        (<[ "after" := VMember after ]>
         (<[ "changes" := VChanges changes ]> ∅)))).

(** [user.mention], which fails on [None]. *)
Definition getattr_mention (user : option Member) : Result string :=
  match user with
  | Some u => Ok (member_mention u)
  | None => Raise (AttributeError "'NoneType' object has no attribute 'mention'")
  end.

Definition user_val (user : option Member) : PyVal :=
  match user with Some u => VMember u | None => VNone end.

(** The two coroutines of each [asyncio.gather] run here one after the
    other, in the order of the call. *)
Definition add_alt (ctx : Context) (first_name second_name : string) : M unit :=
  let first_user := find_user first_name (ctx_guild ctx) in
  let second_user := find_user second_name (ctx_guild ctx) in
  let embed := mkEmbed dark_red None in
  let content : list SbOp := [] in
  let content :=
    match first_user with
    | None =>
        (content ++ [SbWriteln ("No user information found for `" ++ first_name ++ "`")])%list
    | Some _ => content
    end in
  let content :=
    match second_user with
    | None =>
        (content ++ [SbWriteln ("No user information found for `" ++ second_name ++ "`")])%list
    | Some _ => content
    end in
  if StringBuilder_bool None content then
    let embed := mkEmbed (colour embed) (Some (StringBuilder_str None content)) in
    ctx_send ctx {[ "embed" := VEmbed embed ]} ;;;
    reaction_add FAIL (ctx_message ctx)
  else
    (* with self.bot.sql.transaction(): *)
    sql (AddPossibleAlt (ctx_guild ctx) first_user second_user) ;;;
    first_mention <- lift (getattr_mention first_user) ;;
    second_mention <- lift (getattr_mention second_user) ;;
    let content := "Added " ++ first_mention ++ " and " ++ second_mention
                   ++ " as possible alt accounts." in
    journal_send "alt/add" (Some (ctx_guild ctx)) content
      (<[ "icon" := VStr "item_add" ]>
       (<[ "users" := VList [user_val first_user; user_val second_user] ]> ∅)) ;;;
    reaction_add SUCCESS (ctx_message ctx).

Definition del_alt_chain (ctx : Context) (name : string) : M unit :=
  match find_user name (ctx_guild ctx) with
  | None =>
      let embed := mkEmbed dark_red
                     (Some ("No user information found for `" ++ name ++ "`")) in
      ctx_send ctx {[ "embed" := VEmbed embed ]} ;;;
      reaction_add FAIL (ctx_message ctx)
  | Some user =>
      sql (AllDeletePossibleAlts (ctx_guild ctx) user) ;;;
      let content := "Removed all alt accounts in " ++ member_mention user
                     ++ "'s chain" in
      journal_send "alt/clear" (Some (ctx_guild ctx)) content
        (<[ "icon" := VStr "item_clear" ]> (<[ "user" := VMember user ]> ∅)) ;;;
      reaction_add SUCCESS (ctx_message ctx)
  end.

End Cog.

End Alias.

(** ** Vocabulary of the properties of attachments *)

Section Attachments.

Import DirectMessage.

(** The file has a stream behind it. *)
Definition open_file (w : World) (f : File) : Prop :=
  is_Some (streams w !! fp f).

(** The world after the streams [hs] were read to their end, in that order. *)
Definition consume (hs : list nat) (w : World) : World :=
  foldl (fun w h => snd (read h w)) w hs.

(** Whatever else is read before, and in whatever order, a first read of
    [f'] yields all of [bytes]. *)
Definition independently_readable (w : World) (f' : File)
    (bytes : list Byte.byte) : Prop :=
  forall hs, fp f' ∉ hs -> fst (read (fp f') (consume hs w)) = Ok bytes.

(** [f'], in the world [w'], is a duplicate of what [f] was in [w]: the
    filename of [f], a stream of its own, and all the bytes of [f] to read. *)
Definition duplicate_of (w w' : World) (f f' : File) : Prop :=
  filename f' = filename f
  /\ fp f' <> fp f
  /\ exists s, streams w !! fp f = Some s
               /\ independently_readable w' f' (data s).

(** The stream [copy_discord_file] allocates for [f]. *)
Definition fresh_stream (w : World) (f : File) : Stream :=
  mkStream (default [] (data <$> streams w !! fp f)) 0.

(** The files [copy_discord_file] returns for [fs] when the first free
    handle is [n]. *)
Fixpoint copies (n : nat) (fs : list File) : list File :=
  match fs with
  | [] => []
  | f :: fs' => mkFile n (filename f) :: copies (S n) fs'
  end.

(** The keyword arguments [DirectMessageListener.handle] builds when the
    attachments are the file [ofile] and the files [ofiles], and [n] is the
    first free handle. *)
Definition built_kwargs (attributes : gmap string PyVal) (c : string)
    (n : nat) (ofile : option File) (ofiles : option (list File)) :
    gmap string PyVal :=
  let k0 : gmap string PyVal := {[ "content" := VStr c ]} in
  let k1 := match attributes !! "embed" with
            | Some v => <[ "embed" := v ]> k0
            | None => k0
            end in
  let k2 := match ofile with
            | Some f => <[ "file" := VFile (mkFile n (filename f)) ]> k1
            | None => k1
            end in
  match ofiles with
  | Some fs =>
      <[ "files" := VList (VFile <$> copies (n + length (option_list ofile)) fs) ]> k2
  | None => k2
  end.

(** The world after the files [copied] were duplicated and the message
    [kw] was sent to the user of [self]. *)
Definition world_after (self : DirectMessageListener) (w : World)
    (kw : gmap string PyVal) (copied : list File) : World :=
  set_outbox (outbox w ++ [mkMessage (ToUser (user self)) kw])
    (set_streams (streams w ++ (fresh_stream w <$> copied)) w).

End Attachments.

(** ** Vocabulary of the properties of the extension pattern *)

Section Pattern.

Import Alias.

(** Every character of [s] passes [p]. *)
Fixpoint all_chars (p : ascii -> bool) (s : string) : bool :=
  match s with
  | EmptyString => true
  | String c s' => p c && all_chars p s'
  end.

(** [a-z] *)
Definition lower (c : ascii) : bool := class_ok (Range "a" "z") c.

Definition not_newline (c : ascii) : bool := class_ok AnyChar c.

(** The loop of [match_here] at a [Plus] node, once the first character
    was taken: [k] is the match of the nodes that follow. *)
Definition plus_more (cl : CharClass)
    (k : string -> nat -> Caps -> option Caps) :
    string -> nat -> Caps -> option Caps :=
  fix more (s : string) (i : nat) (caps : Caps) : option Caps :=
    match s with
    | String c s' =>
        if class_ok cl c then
          match more s' (S i) caps with
          | Some res => Some res
          | None => k s i caps
          end
        else k s i caps
    | EmptyString => k s i caps
    end.

End Pattern.

(** ** Vocabulary of the properties of journal events *)

(** An event scoped to [g] that carries the icon [icon] and no attachment. *)
Definition plain_event (g : Guild) (icon : string) (js : JournalSend) : Prop :=
  js_guild js = Some g
  /\ js_attributes js !! "icon" = Some (VStr icon)
  /\ js_attributes js !! "embed" = None
  /\ js_attributes js !! "file" = None
  /\ js_attributes js !! "files" = None.

(** ** Sample data for the examples *)

Module Sample.

Definition general : Channel := mkChannel 10.
Definition logs : Channel := mkChannel 11.
Definition elsewhere : Channel := mkChannel 20.

Definition guild_G : Guild := mkGuild 1 "Test Guild" [general; logs].
Definition guild_H : Guild := mkGuild 2 "Other Guild" [elsewhere].

Definition alice : Member :=
  mkMember 100 "alice" None (Some "a1")
    "https://cdn.discordapp.com/avatars/100/a1.png?size=1024" "<@100>" guild_G.
Definition alice_after : Member :=
  mkMember 100 "alice" None (Some "a2")
    "https://cdn.discordapp.com/avatars/100/a2.png?size=1024" "<@100>" guild_G.
Definition bob : Member :=
  mkMember 101 "bob" (Some "bobby") None
    "https://cdn.discordapp.com/embed/avatars/1.png" "<@101>" guild_G.

Definition sink : ChannelOutput.ChannelOutputListener :=
  ChannelOutput.mkChannelOutputListener "/alias" logs true None.

(** A user filter that lets through the events with content. *)
Definition nonempty_content (path : string) (guild : option Guild)
    (content : string) (attributes : gmap string PyVal) : Result bool :=
  Ok (negb (String.eqb content "")).

Definition filtered_sink : ChannelOutput.ChannelOutputListener :=
  ChannelOutput.mkChannelOutputListener "/alias" logs true (Some nonempty_content).

Definition dm : DirectMessage.DirectMessageListener :=
  DirectMessage.mkDirectMessageListener "/alts" alice false.

Definition picture : File := mkFile 0 (Some "avatar.png").
Definition report : File := mkFile 1 (Some "report.txt").
Definition notes : File := mkFile 2 None.

(** Three open streams; the second was read to its end already. *)
Definition world : World :=
  mkWorld
    [ mkStream [Byte.x89; Byte.x50; Byte.x4e; Byte.x47] 0;
      mkStream [Byte.x68; Byte.x69] 2;
      mkStream [] 0 ]
    [] [] [] [].

Definition rich : Embed := mkEmbed Alias.dark_red (Some "details").

Definition attachments : gmap string PyVal :=
  <[ "embed" := VEmbed rich ]>
  (<[ "file" := VFile picture ]>
   (<[ "files" := VList [VFile report; VFile notes] ]> ∅)).

Definition ctx : Alias.Context := Alias.mkContext guild_G general 5000.

(** Stand-ins for the helpers alias.py imports. *)
Definition download_link (url : string) : Result PyVal := Ok (VBytes []).
Definition user_discrim (m : Member) : string := member_name m ++ "#0001".
Definition find_user (name : string) (g : Guild) : option Member :=
  if String.eqb name "alice" then Some alice
  else if String.eqb name "bob" then Some bob
  else None.
Definition sb_text (op : Alias.SbOp) : string :=
  match op with
  | Alias.SbWrite t => t
  | Alias.SbWriteln t => t ++ String Alias.newline ""
  end.
Definition StringBuilder_str (sep : option string) (ops : list Alias.SbOp) : string :=
  String.concat (default "" sep) (sb_text <$> ops).
Definition StringBuilder_bool (sep : option string) (ops : list Alias.SbOp) : bool :=
  match ops with [] => false | _ => true end.

End Sample.

(** ** More sample data *)

Module SampleMore.

Import Sample.

(** [alice] under a new name and with a first nickname, the avatar kept. *)
Definition alice_renamed : Member :=
  mkMember 100 "alicia" (Some "ally") (Some "a1")
    "https://cdn.discordapp.com/avatars/100/a1.png?size=1024" "<@100>" guild_G.

(** [alice] with a new avatar whose URL the pattern accepts. *)
Definition alice_dot : Member :=
  mkMember 100 "alice" None (Some "a2") ".png?size=1024" "<@100>" guild_G.

(** [bob] without his nickname. *)
Definition bob_plain : Member :=
  mkMember 101 "bob" None None
    "https://cdn.discordapp.com/embed/avatars/1.png" "<@101>" guild_G.

Definition dm_bob : DirectMessage.DirectMessageListener :=
  DirectMessage.mkDirectMessageListener "/alts" bob true.

Definition files_only : gmap string PyVal :=
  {[ "files" := VList [VFile report; VFile notes] ]}.

Definition renamed_event : JournalSend :=
  mkJournalSend "member/update" (Some guild_G)
    "Member alice#0001 was updated: name: alicia, nick: ally"
    (<[ "icon" := VStr "person" ]>
     (<[ "before" := VMember alice ]>
      (<[ "after" := VMember alice_renamed ]>
       (<[ "changes" :=
             VChanges (mkMemberChanges None (Some "alicia") (Some "ally")) ]> ∅)))).

Definition alt_event : JournalSend :=
  mkJournalSend "alt/add" (Some guild_G)
    "Added <@100> and <@101> as possible alt accounts."
    (<[ "icon" := VStr "item_add" ]>
     (<[ "users" := VList [VMember alice; VMember bob] ]> ∅)).

End SampleMore.

(** * Properties *)

(** ** Strings and the monad *)

Lemma string_cons_app (c : ascii) (a b : string) :
  String c a ++ b = String c (a ++ b).
Proof. reflexivity. Qed.

Lemma string_prefix_app (a b : string) :
  String.prefix a b = true <-> exists rest, b = a ++ rest.
Proof.
  revert b. induction a as [|c a IH]; intros b.
  - destruct b; split; eauto.
  - destruct b as [|d b]; cbn [String.prefix].
    + split; [discriminate | intros [rest H]; discriminate].
    + destruct (ascii_dec c d) as [->|Hne].
      * rewrite IH. split; intros [rest H]; exists rest;
          rewrite string_cons_app in *; congruence.
      * split; [discriminate|].
        intros [rest H]. rewrite string_cons_app in H. congruence.
Qed.

Lemma string_app_assoc (a b c : string) : (a ++ b) ++ c = a ++ (b ++ c).
Proof.
  induction a as [|x a IH]; [reflexivity|].
  rewrite !string_cons_app. by rewrite IH.
Qed.

Lemma bind_ok {A B} (m : M A) (k : A -> M B) w a w' :
  m w = (Ok a, w') -> bind m k w = k a w'.
Proof. unfold bind. intros ->. reflexivity. Qed.

Lemma bind_raise {A B} (m : M A) (k : A -> M B) w e w' :
  m w = (Raise e, w') -> bind m k w = (Raise e, w').
Proof. unfold bind. intros ->. reflexivity. Qed.

(** ** ChannelOutputListener *)

Section ChannelSink.

Import ChannelOutput.

Variable self : ChannelOutputListener.
Variables (path : string) (content : string).
Variable attributes : gmap string PyVal.

Lemma filter_some (g : Guild) :
  filter self path (Some g) content attributes
  = Ok (bool_decide (channel self ∈ guild_channels g)).
Proof.
  unfold filter. simpl. destruct (bool_decide _); reflexivity.
Qed.

Lemma filter_none :
  filter self path None content attributes
  = Raise (AttributeError "'NoneType' object has no attribute 'channels'").
Proof. reflexivity. Qed.

Lemma check_filter_not_true (guild : option Guild) :
  filter self path guild content attributes <> Ok true ->
  Journal.check self path guild content attributes <> Ok true.
Proof.
  unfold Journal.check.
  destruct (filter self path guild content attributes) as [[|]|e];
    congruence.
Qed.

(** C1. The filter of a listener bound to [channel self] accepts an event
    exactly when the event has a scope whose channels contain that channel;
    it answers [False] for a scope that does not contain it; and when the
    filter does not accept, dispatching the event to the listener leaves
    the world as it was: nothing is sent. *)
Theorem C1_filter_scope_membership (guild : option Guild) :
  (filter self path guild content attributes = Ok true
     <-> exists g, guild = Some g /\ channel self ∈ guild_channels g)
  /\ (forall g, guild = Some g -> channel self ∉ guild_channels g ->
        filter self path guild content attributes = Ok false)
  /\ (forall w,
        filter self path guild content attributes <> Ok true ->
        exists o,
          Journal.dispatch (Journal.channel_listener self)
            path guild content attributes w = (Ok o, w)
          /\ o <> Journal.Delivered).
Proof.
  split; [|split].
  - destruct guild as [g|].
    + rewrite filter_some. split.
      * intros H. exists g. split; [reflexivity|].
        injection H as H. by apply bool_decide_eq_true in H.
      * intros (g' & Hg & Hin). injection Hg as <-.
        f_equal. by apply bool_decide_eq_true.
    + rewrite filter_none. split; [discriminate|].
      intros (g & Hg & _). discriminate.
  - intros g -> Hnot. rewrite filter_some. f_equal.
    by apply bool_decide_eq_false.
  - intros w Hrej. apply check_filter_not_true in Hrej.
    unfold Journal.dispatch. simpl.
    destruct (Journal.matches _ _ _); [|by eexists].
    destruct (Journal.check self path guild content attributes) as [[|]|e];
      [congruence | by eexists | by eexists].
Qed.

Lemma handle_icon (guild : option Guild) (name glyph : string) (w : World) :
  attributes !! "icon" = Some (VStr name) ->
  ICONS !! name = Some glyph ->
  handle self path guild content attributes w
  = (Ok tt,
     set_outbox
       (outbox w ++ [mkMessage (ToChannel (channel self))
                       {[ "content" := VStr (glyph ++ " " ++ content) ]}]) w).
Proof.
  intros Hicon Hglyph. unfold handle. rewrite Hicon.
  cbn [from_option id].
  unfold bind, lift, ICONS_getitem. cbn [hashable]. rewrite Hglyph.
  reflexivity.
Qed.

(** C2. With an [icon] attribute naming a key of [ICONS], the handler sends
    to the channel the glyph, one space and the content; for [person] that
    is the bust in silhouette; without an [icon] key the content is sent as
    it is. In each case the message is the only effect. *)
Theorem C2_handle_prepends_glyph (guild : option Guild) (w : World) :
  (forall name glyph,
      attributes !! "icon" = Some (VStr name) ->
      ICONS !! name = Some glyph ->
      handle self path guild content attributes w
      = (Ok tt,
         set_outbox
           (outbox w ++ [mkMessage (ToChannel (channel self))
                           {[ "content" := VStr (glyph ++ " " ++ content) ]}]) w))
  /\ (attributes !! "icon" = Some (VStr "person") ->
      handle self path guild content attributes w
      = (Ok tt,
         set_outbox
           (outbox w ++ [mkMessage (ToChannel (channel self))
                           {[ "content" := VStr ("👤 " ++ content) ]}]) w))
  /\ (attributes !! "icon" = None ->
      handle self path guild content attributes w
      = (Ok tt,
         set_outbox
           (outbox w ++ [mkMessage (ToChannel (channel self))
                           {[ "content" := VStr content ]}]) w)).
Proof.
  split; [|split].
  - intros name glyph. apply handle_icon.
  - intros Hicon.
    apply (handle_icon guild "person" "👤" w Hicon).
    vm_compute. reflexivity.
  - intros Hicon. unfold handle. rewrite Hicon. reflexivity.
Qed.

Lemma handle_missing_icon (guild : option Guild) (name : string) (w : World) :
  attributes !! "icon" = Some (VStr name) ->
  ICONS !! name = None ->
  handle self path guild content attributes w = (Raise (KeyError (VStr name)), w).
Proof.
  intros Hicon Hnone. unfold handle. rewrite Hicon.
  cbn [from_option id].
  unfold bind, lift, ICONS_getitem. cbn [hashable]. rewrite Hnone.
  reflexivity.
Qed.

(** C3. With an [icon] attribute naming no key of [ICONS], the handler
    raises the error of the failed lookup, [KeyError] on that name, and the
    world is as before: the failure comes before the send. *)
Theorem C3_handle_unknown_icon (guild : option Guild) (name : string) (w : World) :
  attributes !! "icon" = Some (VStr name) ->
  ICONS !! name = None ->
  handle self path guild content attributes w = (Raise (KeyError (VStr name)), w).
Proof. apply handle_missing_icon. Qed.

(** C8. With a user filter [f], an event passes the filtering step exactly
    when the scope filter accepts it and [f] accepts it. *)
Theorem C8_user_filter_composed (guild : option Guild)
    (f : string -> option Guild -> string -> gmap string PyVal -> Result bool) :
  user_filter self = Some f ->
  (Journal.check self path guild content attributes = Ok true
   <-> filter self path guild content attributes = Ok true
       /\ f path guild content attributes = Ok true).
Proof.
  intros Hf. unfold Journal.check. rewrite Hf.
  destruct (filter self path guild content attributes) as [[|]|e].
  - split; [intros H; split; [reflexivity | exact H] | intros [_ H]; exact H].
  - split; [discriminate | intros [H _]; discriminate].
  - split; [discriminate | intros [H _]; discriminate].
Qed.

Lemma dispatch_without_scope (w : World) :
  Journal.matches (ChannelOutput.path self) (recursive self) path = true ->
  Journal.dispatch (Journal.channel_listener self) path None content attributes w
  = (Ok (Journal.FilterFailed
           (AttributeError "'NoneType' object has no attribute 'channels'")),
     w).
Proof.
  intros Hm. unfold Journal.dispatch. simpl. rewrite Hm. reflexivity.
Qed.

(** C9. For an event without a scope the filter does not answer [False]:
    it raises [AttributeError], since [guild.channels] is read without a
    check for [None]; such an event ends in an error, not in a rejection. *)
Theorem C9_filter_raises_without_scope :
  filter self path None content attributes
  = Raise (AttributeError "'NoneType' object has no attribute 'channels'")
  /\ filter self path None content attributes <> Ok false
  /\ filter self path None content attributes <> Ok true.
Proof. split; [reflexivity | split; discriminate]. Qed.

End ChannelSink.

(** ** Topic paths *)

Lemma matches_recursive (L P : string) :
  Journal.matches L true P = true
  <-> P = L \/ exists rest, P = L ++ "/" ++ rest.
Proof.
  unfold Journal.matches. rewrite orb_true_iff, andb_true_l.
  rewrite String.eqb_eq, string_prefix_app.
  split; intros [H|[rest H]]; try (left; congruence); right; exists rest.
  - by rewrite <- string_app_assoc.
  - by rewrite string_app_assoc.
Qed.

Lemma matches_exact (L P : string) :
  Journal.matches L false P = true <-> P = L.
Proof.
  unfold Journal.matches. rewrite andb_false_l, orb_false_r.
  rewrite String.eqb_eq. split; congruence.
Qed.

(** C7. A recursive listener at [L] matches [P] exactly when [P] is [L] or
    starts with [L] followed by the separator; a listener that is not
    recursive matches [P] exactly when [P] is [L]; so a registration at
    [/al] does not match [/alias], whatever its flag. *)
Theorem C7_matching_rule (L P : string) :
  (Journal.matches L true P = true
     <-> P = L \/ exists rest, P = L ++ "/" ++ rest)
  /\ (Journal.matches L false P = true <-> P = L)
  /\ (forall r, Journal.matches "/al" r "/alias" = false).
Proof.
  split; [apply matches_recursive | split; [apply matches_exact|]].
  intros [|]; reflexivity.
Qed.

(** ** DirectMessageListener *)

Section DirectSink.

Import DirectMessage.

Lemma read_other (h h' : nat) (w : World) :
  h' <> h -> streams (snd (read h w)) !! h' = streams w !! h'.
Proof.
  intros Hne. unfold read. destruct (streams w !! h) as [s|] eqn:E.
  - cbn [snd streams set_streams]. by apply list_lookup_insert_ne.
  - reflexivity.
Qed.

Lemma consume_other (hs : list nat) (h' : nat) (w : World) :
  h' ∉ hs -> streams (consume hs w) !! h' = streams w !! h'.
Proof.
  revert w. induction hs as [|h hs IH]; intros w Hnot; [reflexivity|].
  apply not_elem_of_cons in Hnot as [Hne Hnot].
  unfold consume in *. cbn [foldl]. rewrite IH by assumption.
  by apply read_other.
Qed.

Lemma fresh_readable (w : World) (f' : File) (bytes : list Byte.byte) :
  streams w !! fp f' = Some (mkStream bytes 0) ->
  independently_readable w f' bytes.
Proof.
  intros Hs hs Hnot. unfold read.
  rewrite (consume_other hs (fp f') w Hnot), Hs. reflexivity.
Qed.

Lemma copy_file_ok (f : File) (s : Stream) (w : World) :
  streams w !! fp f = Some s ->
  copy_discord_file (VFile f) w
  = (Ok (VFile (mkFile (length (streams w)) (filename f))),
     set_streams (streams w ++ [fresh_stream w f]) w).
Proof.
  intros Hs. unfold copy_discord_file, fresh_stream. rewrite Hs. reflexivity.
Qed.

Lemma copy_outbox (v : PyVal) (w w' : World) (r : Result PyVal) :
  copy_discord_file v w = (r, w') -> outbox w' = outbox w.
Proof.
  unfold copy_discord_file, raise.
  destruct v; try (intros [= <- <-]; reflexivity).
  destruct (streams w !! fp f); intros [= <- <-]; reflexivity.
Qed.

Lemma mapM_copy_outbox (l : list PyVal) (w w' : World) (r : Result (list PyVal)) :
  mapM copy_discord_file l w = (r, w') -> outbox w' = outbox w.
Proof.
  revert w w' r. induction l as [|v l IH]; intros w w' r; cbn [mapM].
  - intros [= <- <-]. reflexivity.
  - unfold bind at 1.
    destruct (copy_discord_file v w) as [[y|e] w1] eqn:E1.
    + apply copy_outbox in E1. unfold bind at 1.
      destruct (mapM copy_discord_file l w1) as [[ys|e] w2] eqn:E2.
      * apply IH in E2. intros [= <- <-]. congruence.
      * apply IH in E2. intros [= <- <-]. congruence.
    + apply copy_outbox in E1. intros [= <- <-]. exact E1.
Qed.

Lemma fresh_stream_app (w : World) (extra : list Stream) (f : File) :
  open_file w f ->
  fresh_stream (set_streams (streams w ++ extra) w) f = fresh_stream w f.
Proof.
  intros [s Hs]. unfold fresh_stream. cbn [streams set_streams].
  rewrite lookup_app_l; [reflexivity|]. by eapply lookup_lt_Some.
Qed.

Lemma open_file_app (w : World) (extra : list Stream) (f : File) :
  open_file w f -> open_file (set_streams (streams w ++ extra) w) f.
Proof.
  intros [s Hs]. exists s. cbn [streams set_streams].
  rewrite lookup_app_l; [exact Hs|]. by eapply lookup_lt_Some.
Qed.

Lemma mapM_copy_files (fs : list File) (w : World) :
  Forall (open_file w) fs ->
  mapM copy_discord_file (VFile <$> fs) w
  = (Ok (VFile <$> copies (length (streams w)) fs),
     set_streams (streams w ++ (fresh_stream w <$> fs)) w).
Proof.
  revert w. induction fs as [|f fs IH]; intros w Hopen.
  - cbn. unfold ret, set_streams. rewrite app_nil_r. by destruct w.
  - apply Forall_cons in Hopen as [[s Hs] Hopen].
    cbn [fmap list_fmap mapM copies].
    rewrite (bind_ok _ _ _ _ _ (copy_file_ok f s w Hs)).
    set (w1 := set_streams (streams w ++ [fresh_stream w f]) w).
    assert (Hopen1 : Forall (open_file w1) fs).
    { eapply Forall_impl; [exact Hopen|]. intros. by apply open_file_app. }
    rewrite (bind_ok _ _ _ _ _ (IH w1 Hopen1)). unfold ret. f_equal.
    + do 3 f_equal. subst w1. cbn [streams set_streams].
      rewrite length_app. cbn. f_equal. lia.
    + subst w1. unfold set_streams. cbn [streams outbox sql_log journal_log reactions].
      f_equal. rewrite <- app_assoc. cbn [app]. do 2 f_equal.
      apply Forall_fmap_ext_1. eapply Forall_impl; [exact Hopen|].
      intros f' Hf'. by apply (fresh_stream_app w [fresh_stream w f] f').
Qed.

Lemma copies_fp (n : nat) (fs : list File) :
  fp <$> copies n fs = seq n (length fs).
Proof.
  revert n. induction fs as [|f fs IH]; intros n; [reflexivity|].
  cbn. f_equal. apply IH.
Qed.

Lemma copies_duplicate (w w' : World) (pre post : list Stream) (fs : list File) :
  streams w' = (streams w ++ pre ++ (fresh_stream w <$> fs) ++ post)%list ->
  Forall (open_file w) fs ->
  Forall2 (duplicate_of w w') fs
          (copies (length (streams w) + length pre) fs).
Proof.
  revert pre. induction fs as [|f fs IH]; intros pre Hw' Hopen;
    [constructor|].
  apply Forall_cons in Hopen as [[s Hs] Hopen].
  cbn [copies]. constructor.
  - split; [reflexivity|]. cbn [fp filename]. split.
    + apply lookup_lt_Some in Hs. lia.
    + exists s. split; [exact Hs|]. apply fresh_readable. cbn [fp].
      rewrite Hw'. rewrite lookup_app_r by lia.
      rewrite lookup_app_r by lia.
      replace (length (streams w) + length pre - length (streams w)
               - length pre) with 0 by lia.
      cbn. unfold fresh_stream. rewrite Hs. reflexivity.
  - replace (S (length (streams w) + length pre))
      with (length (streams w) + length (pre ++ [fresh_stream w f])).
    2:{ rewrite length_app. cbn. lia. }
    apply IH; [|exact Hopen].
    rewrite Hw'. cbn [fmap list_fmap]. rewrite <- !app_assoc. reflexivity.
Qed.

Variable self : DirectMessageListener.
Variables (path : string) (content : string).
Variable attributes : gmap string PyVal.

(** One step of the case analysis on a run of [handle]. *)
Ltac handle_step :=
  match goal with
  | |- context [copy_discord_file ?v ?w] =>
      let E := fresh "Ecopy" in
      destruct (copy_discord_file v w) as [[?|?] ?] eqn:E;
      apply copy_outbox in E
  | |- context [mapM copy_discord_file ?l ?w] =>
      let E := fresh "Emap" in
      destruct (mapM copy_discord_file l w) as [[?|?] ?] eqn:E;
      apply mapM_copy_outbox in E
  | |- context [py_iter ?v] => destruct (py_iter v)
  end; cbv beta iota zeta.

Ltac kwargs_lookup :=
  repeat first
    [ rewrite lookup_insert_eq
    | rewrite lookup_insert_ne by discriminate
    | rewrite lookup_singleton_eq
    | rewrite lookup_singleton_ne by discriminate ].

(** C5. Whenever the handler delivers, the content of the message is the
    original content behind the name of the scope in square brackets and a
    space when there is a scope, and the original content when there is
    none; a run that raises delivers nothing; and an event without
    attachments is always delivered. *)
Theorem C5_dm_scope_prefix (guild : option Guild) (w : World) :
  exists r w',
    handle self path guild content attributes w = (r, w')
    /\ ((exists e, r = Raise e /\ outbox w' = outbox w)
        \/ (r = Ok tt
            /\ exists kw,
                 outbox w' = (outbox w ++ [mkMessage (ToUser (user self)) kw])%list
                 /\ (forall g, guild = Some g ->
                       kw !! "content"
                       = Some (VStr ("[" ++ guild_name g ++ "] " ++ content)))
                 /\ (guild = None -> kw !! "content" = Some (VStr content))))
    /\ (attributes !! "file" = None -> attributes !! "files" = None ->
        r = Ok tt).
Proof.
  unfold handle.
  set (c := match guild with
            | Some g => "[" ++ guild_name g ++ "] " ++ content
            | None => content
            end).
  assert (Hc : (forall g, guild = Some g ->
                  c = "[" ++ guild_name g ++ "] " ++ content)
               /\ (guild = None -> c = content)).
  { subst c. split; [intros g ->|intros ->]; reflexivity. }
  clearbody c. destruct Hc as [Hsome Hnone].
  destruct (attributes !! "embed") as [ve|];
    destruct (attributes !! "file") as [vf|];
    destruct (attributes !! "files") as [vfs|];
    unfold bind, ret, lift, raise; cbv beta iota zeta;
    repeat handle_step;
    eexists _, _; (split; [reflexivity|]); (split; [|try discriminate; try reflexivity]);
    try (left; eexists; split; [reflexivity|congruence]);
    right; (split; [reflexivity|]); eexists; unfold send;
    cbn [outbox set_outbox]; (split; [f_equal; congruence|]);
    (split; [intros g Hg; rewrite (Hsome g Hg)|intros Hg; rewrite (Hnone Hg)]);
    kwargs_lookup; reflexivity.
Qed.

Lemma set_streams_id (w : World) : set_streams (streams w ++ []) w = w.
Proof. unfold set_streams. rewrite app_nil_r. by destruct w. Qed.

Lemma handle_run (guild : option Guild) (w : World)
    (ofile : option File) (ofiles : option (list File)) :
  attributes !! "file" = VFile <$> ofile ->
  attributes !! "files" = (fun fs => VList (VFile <$> fs)) <$> ofiles ->
  Forall (open_file w) (option_list ofile ++ default [] ofiles)%list ->
  handle self path guild content attributes w
  = (Ok tt,
     set_outbox
       (outbox w ++
          [mkMessage (ToUser (user self))
             (built_kwargs attributes
                match guild with
                | Some g => "[" ++ guild_name g ++ "] " ++ content
                | None => content
                end
                (length (streams w)) ofile ofiles)])
       (set_streams
          (streams w ++ (fresh_stream w <$> (option_list ofile ++ default [] ofiles)%list))
          w)).
Proof.
  intros Hf Hfs Hopen. unfold handle, built_kwargs. rewrite Hf, Hfs.
  set (k1 := match attributes !! "embed" with
             | Some v => <[ "embed" := v ]> _
             | None => _
             end).
  assert (Hk1 : match attributes !! "embed" with
                | Some v => ret (<[ "embed" := v ]>
                    ({[ "content" := VStr match guild with
                        | Some g => "[" ++ guild_name g ++ "] " ++ content
                        | None => content
                        end ]} : gmap string PyVal))
                | None => ret {[ "content" := VStr match guild with
                        | Some g => "[" ++ guild_name g ++ "] " ++ content
                        | None => content
                        end ]}
                end = ret k1).
  { subst k1. by destruct (attributes !! "embed"). }
  cbv zeta. rewrite Hk1. clearbody k1. clear Hk1.
  unfold bind at 1. unfold ret at 1. cbv beta iota.
  destruct ofile as [f|], ofiles as [fs|];
    cbn [fmap option_fmap option_map option_list from_option id app length] in *.
  - apply Forall_cons in Hopen as [[s Hs] Hopen].
    unfold bind at 1. unfold bind at 1.
    rewrite (copy_file_ok f s w Hs). unfold ret at 1. cbv beta iota.
    set (w1 := set_streams (streams w ++ [fresh_stream w f]) w).
    assert (Hopen1 : Forall (open_file w1) fs).
    { eapply Forall_impl; [exact Hopen|]. intros. by apply open_file_app. }
    unfold bind at 1. unfold bind at 1. unfold lift. cbn [py_iter].
    unfold bind at 1.
    rewrite (mapM_copy_files fs w1 Hopen1). unfold ret at 1. cbv beta iota.
    unfold send. subst w1. unfold set_outbox, set_streams.
    cbn [streams outbox sql_log journal_log reactions].
    rewrite length_app, <- app_assoc. cbn [length app].
    change (option_list (Some f) ++ fs)%list with (f :: fs).
    cbn [fmap list_fmap]. do 4 f_equal.
    apply Forall_fmap_ext_1. eapply Forall_impl; [exact Hopen|].
    intros f' Hf'. by apply (fresh_stream_app w [fresh_stream w f] f').
  - apply Forall_cons in Hopen as [[s Hs] _].
    unfold bind at 1. unfold bind at 1.
    rewrite (copy_file_ok f s w Hs). unfold ret at 1. cbv beta iota.
    unfold bind at 1. unfold ret at 1. cbv beta iota.
    reflexivity.
  - unfold bind at 1. unfold ret at 1. cbv beta iota.
    unfold bind at 1. unfold bind at 1. unfold lift. cbn [py_iter].
    unfold bind at 1.
    rewrite (mapM_copy_files fs w Hopen). unfold ret at 1. cbv beta iota.
    unfold send. rewrite Nat.add_0_r. reflexivity.
  - unfold bind at 1. unfold ret at 1. cbv beta iota.
    unfold bind at 1. unfold ret at 1. cbv beta iota.
    unfold send. by rewrite set_streams_id.
Qed.

Lemma world_after_file (w : World) kw (f : File) (rest : list File) :
  open_file w f ->
  duplicate_of w (world_after self w kw (f :: rest)) f
    (mkFile (length (streams w)) (filename f)).
Proof.
  intros Hopen.
  pose proof (copies_duplicate w (world_after self w kw (f :: rest)) []
                (fresh_stream w <$> rest) [f]) as H.
  cbn [copies length] in H. rewrite Nat.add_0_r in H.
  assert (Hd : Forall2 (duplicate_of w (world_after self w kw (f :: rest))) [f]
                 [mkFile (length (streams w)) (filename f)]).
  { apply H; [reflexivity|]. by apply Forall_singleton. }
  by apply Forall2_cons_1 in Hd as [Hd _].
Qed.

Lemma world_after_files (w : World) kw (pre fs : list File) :
  Forall (open_file w) fs ->
  Forall2 (duplicate_of w (world_after self w kw (pre ++ fs)))
    fs (copies (length (streams w) + length pre) fs).
Proof.
  intros Hopen.
  pose proof (copies_duplicate w (world_after self w kw (pre ++ fs))
                (fresh_stream w <$> pre) [] fs) as H.
  rewrite length_fmap in H. apply H; [|exact Hopen].
  unfold world_after. cbn [streams set_outbox set_streams].
  by rewrite fmap_app, app_nil_r.
Qed.

Lemma world_after_keeps (w : World) kw copied (h : nat) (s : Stream) :
  streams w !! h = Some s -> streams (world_after self w kw copied) !! h = Some s.
Proof.
  intros Hs. unfold world_after. cbn [streams set_outbox set_streams].
  rewrite lookup_app_l; [exact Hs|]. by eapply lookup_lt_Some.
Qed.

#[local] Instance VFile_inj : Inj (=) (=) VFile.
Proof. intros f g H. by injection H. Qed.

(** C6. For an event whose [file] is an open attachment and whose [files]
    is a list of open attachments (where present), the handler delivers one
    message whose payload has the [embed] attribute as it is; under [file] a
    duplicate of the attachment; under [files] duplicates of the
    attachments, as many and in the same order, on streams that differ from
    one another and from that of [file]; and no [embed], [file] or [files]
    entry for a key the attributes lack. A duplicate has the filename of
    the original and a stream of its own from which all the bytes of the
    original can be read whatever else is read before. The streams of the
    originals are left as they were. *)
Theorem C6_dm_payload (guild : option Guild) (w : World) :
  (forall v, attributes !! "file" = Some v ->
     exists f, v = VFile f /\ open_file w f) ->
  (forall v, attributes !! "files" = Some v ->
     exists fs, v = VList (VFile <$> fs) /\ Forall (open_file w) fs) ->
  exists kw w',
    handle self path guild content attributes w = (Ok tt, w')
    /\ outbox w' = (outbox w ++ [mkMessage (ToUser (user self)) kw])%list
    /\ kw !! "embed" = attributes !! "embed"
    /\ (attributes !! "file" = None -> kw !! "file" = None)
    /\ (forall f, attributes !! "file" = Some (VFile f) ->
          exists f', kw !! "file" = Some (VFile f') /\ duplicate_of w w' f f')
    /\ (attributes !! "files" = None -> kw !! "files" = None)
    /\ (forall fs, attributes !! "files" = Some (VList (VFile <$> fs)) ->
          exists fs',
            kw !! "files" = Some (VList (VFile <$> fs'))
            /\ Forall2 (duplicate_of w w') fs fs'
            /\ NoDup (fp <$> fs')
            /\ (forall f', kw !! "file" = Some (VFile f') -> fp f' ∉ fp <$> fs'))
    /\ (forall h s, streams w !! h = Some s -> streams w' !! h = Some s).
Proof.
  intros Hfile Hfiles.
  assert (exists ofile, attributes !! "file" = VFile <$> ofile
                        /\ Forall (open_file w) (option_list ofile))
    as (ofile & Ef & Hof).
  { destruct (attributes !! "file") as [v|].
    - destruct (Hfile v eq_refl) as (f & -> & Hopen).
      exists (Some f). split; [reflexivity|]. by apply Forall_singleton.
    - exists None. split; [reflexivity|constructor]. }
  assert (exists ofiles,
             attributes !! "files" = (fun fs => VList (VFile <$> fs)) <$> ofiles
             /\ Forall (open_file w) (default [] ofiles))
    as (ofiles & Efs & Hofs).
  { destruct (attributes !! "files") as [v|].
    - destruct (Hfiles v eq_refl) as (fs & -> & Hopen).
      exists (Some fs). split; [reflexivity|exact Hopen].
    - exists None. split; [reflexivity|constructor]. }
  clear Hfile Hfiles.
  assert (Hall : Forall (open_file w) (option_list ofile ++ default [] ofiles)%list)
    by (by apply Forall_app).
  set (kw := built_kwargs attributes
               match guild with
               | Some g => "[" ++ guild_name g ++ "] " ++ content
               | None => content
               end (length (streams w)) ofile ofiles).
  exists kw, (world_after self w kw (option_list ofile ++ default [] ofiles)).
  split; [exact (handle_run guild w ofile ofiles Ef Efs Hall)|].
  assert (Hembed : kw !! "embed" = attributes !! "embed").
  { subst kw. unfold built_kwargs.
    destruct ofile, ofiles, (attributes !! "embed"); kwargs_lookup; reflexivity. }
  assert (Hkfile : kw !! "file"
                   = (fun f => VFile (mkFile (length (streams w)) (filename f)))
                       <$> ofile).
  { subst kw. unfold built_kwargs.
    destruct ofile, ofiles, (attributes !! "embed"); kwargs_lookup; reflexivity. }
  assert (Hkfiles : kw !! "files"
                    = (fun fs => VList (VFile <$>
                         copies (length (streams w) + length (option_list ofile)) fs))
                        <$> ofiles).
  { subst kw. unfold built_kwargs.
    destruct ofile, ofiles, (attributes !! "embed"); kwargs_lookup; reflexivity. }
  clearbody kw.
  split; [reflexivity|]. split; [exact Hembed|].
  rewrite Ef, Efs, Hkfile, Hkfiles.
  split; [|split; [|split; [|split]]].
  - by destruct ofile.
  - intros f Hf. destruct ofile as [f0|]; [|discriminate].
    injection Hf as ->. eexists. split; [reflexivity|].
    change (option_list (Some f)) with [f] in *.
    apply (world_after_file w kw f (default [] ofiles)).
    by apply Forall_cons in Hof as [Hof _].
  - by destruct ofiles.
  - intros fs Hfs. destruct ofiles as [fs0|]; [|discriminate].
    cbn [fmap option_fmap option_map] in Hfs. injection Hfs as Hfs.
    apply (inj (fmap VFile)) in Hfs. subst fs0.
    eexists. split; [reflexivity|]. cbn [from_option id] in *.
    split; [by apply world_after_files|].
    rewrite copies_fp. split; [apply NoDup_seq|].
    intros f' Hf'. destruct ofile as [f0|]; [|discriminate].
    injection Hf' as <-. cbn [fp option_list length].
    rewrite elem_of_seq. cbn. lia.
  - intros h s. apply world_after_keeps.
Qed.

End DirectSink.

(** ** The alias cog *)

Section AliasCog.

Import Alias.

Lemma re_match_starts_with_dot (url ext : string) :
  re_match EXTENSION_REGEX url = Some ext -> exists rest, url = String "." rest.
Proof.
  unfold re_match, EXTENSION_REGEX. destruct url as [|c rest].
  - cbn [match_here]. discriminate.
  - cbn [match_here class_ok].
    destruct (Ascii.eqb_spec "." c) as [<-|Hne]; [by exists rest | discriminate].
Qed.

Lemma re_match_anchored (url : string) :
  (forall rest, url <> String "." rest) ->
  re_match EXTENSION_REGEX url = None.
Proof.
  intros Hnot. destruct (re_match EXTENSION_REGEX url) as [ext|] eqn:E;
    [|reflexivity].
  apply re_match_starts_with_dot in E as [rest ->]. by destruct (Hnot rest).
Qed.

Variable download_link : string -> Result PyVal.
Variable user_discrim : Member -> string.
Variable find_user : string -> Guild -> option Member.
Variable StringBuilder_str : option string -> list SbOp -> string.
Variable StringBuilder_bool : option string -> list SbOp -> bool.

(** C10. When the avatar changed and the avatar URL does not begin with a
    full stop, [member_update] raises and leaves the world as it was: no
    write to the database and no journal event. The error is the
    [ValueError] of the failed match whenever the download returned. *)
Theorem C10_member_update_regex_anchored
    (timestamp : N) (before after : Member) (w : World) :
  member_avatar before <> member_avatar after ->
  (forall rest, member_avatar_url after <> String "." rest) ->
  exists e,
    member_update download_link user_discrim StringBuilder_str
      timestamp before after w = (Raise e, w)
    /\ (forall avatar,
          download_link (member_avatar_url after) = Ok avatar ->
          e = ValueError ("Avatar URL does not match extension regex: "
                          ++ member_avatar_url after)).
Proof.
  intros Havatar Hurl. unfold member_update.
  rewrite (bool_decide_eq_true_2 _ Havatar).
  cbn [avatar_url username nickname].
  destruct (bool_decide (member_name before <> member_name after));
    destruct (bool_decide (member_nick before <> member_nick after)
              && bool_decide (member_nick after <> None));
    unfold MemberChanges_bool; cbn [avatar_url username nickname];
    rewrite (bool_decide_eq_true_2 (is_Some (Some (member_avatar_url after))))
      by eauto;
    cbn [orb negb]; unfold bind at 1; unfold bind at 1; unfold lift;
    destruct (download_link (member_avatar_url after)) as [avatar|e];
    rewrite ?(re_match_anchored _ Hurl); unfold raise;
    (eexists; split; [reflexivity|]; intros; congruence).
Qed.

(** C4. The registry is not total over the icon names of the producers.
    [person], sent by [member_update], is a key of [ICONS]; [item_add] and
    [item_clear] are not. When both users are found, [add_alt] hands the
    journal one event whose icon is [item_add]; when the user is found,
    [del_alt_chain] hands it one whose icon is [item_clear]; and on either
    event the handler of any channel sink raises [KeyError] and sends
    nothing. *)
Theorem C4_alt_icons_not_in_registry
    (ctx : Context) (first_name second_name : string)
    (first_user second_user : Member) (w : World) :
  find_user first_name (ctx_guild ctx) = Some first_user ->
  find_user second_name (ctx_guild ctx) = Some second_user ->
  StringBuilder_bool None [] = false ->
  is_Some (ChannelOutput.ICONS !! "person")
  /\ ChannelOutput.ICONS !! "item_add" = None
  /\ ChannelOutput.ICONS !! "item_clear" = None
  /\ (exists js w',
        add_alt find_user StringBuilder_str StringBuilder_bool
          ctx first_name second_name w = (Ok tt, w')
        /\ journal_log w' = (journal_log w ++ [js])%list
        /\ js_attributes js !! "icon" = Some (VStr "item_add")
        /\ forall self path w0,
             ChannelOutput.handle self path (js_guild js) (js_content js)
               (js_attributes js) w0
             = (Raise (KeyError (VStr "item_add")), w0))
  /\ (exists js w',
        del_alt_chain find_user ctx first_name w = (Ok tt, w')
        /\ journal_log w' = (journal_log w ++ [js])%list
        /\ js_attributes js !! "icon" = Some (VStr "item_clear")
        /\ forall self path w0,
             ChannelOutput.handle self path (js_guild js) (js_content js)
               (js_attributes js) w0
             = (Raise (KeyError (VStr "item_clear")), w0)).
Proof.
  intros H1 H2 Hempty.
  assert (Hadd : ChannelOutput.ICONS !! "item_add" = None)
    by (vm_compute; reflexivity).
  assert (Hclear : ChannelOutput.ICONS !! "item_clear" = None)
    by (vm_compute; reflexivity).
  split; [vm_compute; eauto|]. split; [exact Hadd|]. split; [exact Hclear|].
  split.
  - unfold add_alt. rewrite H1, H2, Hempty.
    unfold bind, sql, lift, getattr_mention, journal_send, reaction_add.
    cbv beta iota. eexists _, _. split; [reflexivity|].
    cbn [journal_log set_journal_log set_sql_log set_reactions].
    split; [reflexivity|]. cbn [js_attributes js_guild js_content].
    split; [by rewrite lookup_insert_eq|].
    intros self path w0. apply handle_missing_icon; [|exact Hadd].
    by rewrite lookup_insert_eq.
  - unfold del_alt_chain. rewrite H1.
    unfold bind, sql, journal_send, reaction_add.
    cbv beta iota. eexists _, _. split; [reflexivity|].
    cbn [journal_log set_journal_log set_sql_log set_reactions].
    split; [reflexivity|]. cbn [js_attributes js_guild js_content].
    split; [by rewrite lookup_insert_eq|].
    intros self path w0. apply handle_missing_icon; [|exact Hclear].
    by rewrite lookup_insert_eq.
Qed.

End AliasCog.

(** ** The scenarios, on the sample data *)

Section Scenarios.

Import Sample.

(** Scenario A: the channel is one of the guild's, the icon is [person]. *)
Example scenario_A :
  Journal.dispatch (Journal.channel_listener sink)
    "/alias/member_update" (Some guild_G) "alice changed"
    {[ "icon" := VStr "person" ]} empty_world
  = (Ok Journal.Delivered,
     set_outbox
       [mkMessage (ToChannel logs) {[ "content" := VStr "👤 alice changed" ]}]
       empty_world).
Proof. vm_compute. reflexivity. Qed.

(** Scenario B: the channel is not one of the guild's. *)
Example scenario_B :
  Journal.dispatch (Journal.channel_listener sink)
    "/alias/member_update" (Some guild_H) "alice changed"
    {[ "icon" := VStr "person" ]} empty_world
  = (Ok Journal.Rejected, empty_world).
Proof. vm_compute. reflexivity. Qed.

(** Scenario C: an icon the registry lacks; the router goes on. *)
Example scenario_C :
  Journal.publish [Journal.channel_listener sink; Journal.dm_listener dm]
    "/alias" (Some guild_G) "alice changed"
    {[ "icon" := VStr "not-a-real-icon" ]} empty_world
  = (Ok [Journal.HandlerFailed (KeyError (VStr "not-a-real-icon"));
         Journal.NoMatch],
     empty_world).
Proof. vm_compute. reflexivity. Qed.

(** Scenario D: a direct message carries the name of the guild. *)
Example scenario_D :
  Journal.dispatch (Journal.dm_listener dm)
    "/alts" (Some guild_G) "Added X and Y" ∅ empty_world
  = (Ok Journal.Delivered,
     set_outbox
       [mkMessage (ToUser alice)
          {[ "content" := VStr "[Test Guild] Added X and Y" ]}]
       empty_world).
Proof. vm_compute. reflexivity. Qed.

(** Scenario E: two sinks forward the same files; each gets streams of its
    own (3 to 5 and 6 to 8), all of them at their start. *)
Example scenario_E :
  let '(r, w') :=
    Journal.publish [Journal.dm_listener dm; Journal.dm_listener dm]
      "/alts" None "see attached" attachments world in
  r = Ok [Journal.Delivered; Journal.Delivered]
  /\ ((fun m => kwargs m !! "files") <$> outbox w'
      = [ Some (VList [VFile (mkFile 4 (Some "report.txt")); VFile (mkFile 5 None)]);
          Some (VList [VFile (mkFile 7 (Some "report.txt")); VFile (mkFile 8 None)]) ])
  /\ ((fun m => kwargs m !! "file") <$> outbox w'
      = [ Some (VFile (mkFile 3 (Some "avatar.png")));
          Some (VFile (mkFile 6 (Some "avatar.png"))) ])
  /\ drop 3 (streams w')
     = [ mkStream [Byte.x89; Byte.x50; Byte.x4e; Byte.x47] 0;
         mkStream [Byte.x68; Byte.x69] 0;
         mkStream [] 0;
         mkStream [Byte.x89; Byte.x50; Byte.x4e; Byte.x47] 0;
         mkStream [Byte.x68; Byte.x69] 0;
         mkStream [] 0 ].
Proof. vm_compute. repeat split. Qed.

(** A listener that is not recursive is not reached below its path. *)
Example dm_not_recursive :
  Journal.dispatch (Journal.dm_listener dm)
    "/alts/add" (Some guild_G) "Added X and Y" ∅ empty_world
  = (Ok Journal.NoMatch, empty_world).
Proof. vm_compute. reflexivity. Qed.

(** An avatar URL that does begin with a full stop gets through. *)
Example member_update_dot_url :
  let after := mkMember 100 "alice" None (Some "a2") ".png?size=1024"
                 "<@100>" guild_G in
  exists w',
    Alias.member_update download_link user_discrim StringBuilder_str
      7 alice after empty_world = (Ok tt, w')
    /\ sql_log w' = [AddAvatar alice 7 (VBytes []) "png"]
    /\ js_content <$> journal_log w'
       = ["Member alice#0001 was updated: avatar: .png?size=1024"].
Proof. eexists. vm_compute. repeat split. Qed.

End Scenarios.

(** ** The theorems at the sample data *)

Section Witnesses.

Import Sample.

Lemma C1_witness :
  ChannelOutput.filter sink "/alias/member_update" (Some guild_H) "hello" ∅
    <> Ok true
  /\ exists o,
       Journal.dispatch (Journal.channel_listener sink)
         "/alias/member_update" (Some guild_H) "hello" ∅ empty_world
       = (Ok o, empty_world)
       /\ o <> Journal.Delivered.
Proof.
  assert (H : ChannelOutput.filter sink "/alias/member_update" (Some guild_H)
                "hello" ∅ <> Ok true) by (vm_compute; discriminate).
  split; [exact H|].
  destruct (C1_filter_scope_membership sink "/alias/member_update" "hello" ∅
              (Some guild_H)) as (_ & _ & Hrej).
  exact (Hrej empty_world H).
Defined.

Lemma C2_witness :
  ({[ "icon" := VStr "person" ]} : gmap string PyVal) !! "icon"
    = Some (VStr "person")
  /\ ChannelOutput.handle sink "/alias/member_update" (Some guild_G) "hello"
       {[ "icon" := VStr "person" ]} empty_world
     = (Ok tt,
        set_outbox
          (outbox empty_world ++
             [mkMessage (ToChannel (ChannelOutput.channel sink))
                {[ "content" := VStr ("👤 " ++ "hello") ]}])
          empty_world).
Proof.
  assert (H : ({[ "icon" := VStr "person" ]} : gmap string PyVal) !! "icon"
              = Some (VStr "person")) by reflexivity.
  split; [exact H|].
  destruct (C2_handle_prepends_glyph sink "/alias/member_update" "hello"
              {[ "icon" := VStr "person" ]} (Some guild_G) empty_world)
    as (_ & Hperson & _).
  exact (Hperson H).
Defined.

Lemma C3_witness :
  ({[ "icon" := VStr "not-a-real-icon" ]} : gmap string PyVal) !! "icon"
    = Some (VStr "not-a-real-icon")
  /\ ChannelOutput.ICONS !! "not-a-real-icon" = None
  /\ ChannelOutput.handle sink "/alias/member_update" (Some guild_G) "hello"
       {[ "icon" := VStr "not-a-real-icon" ]} empty_world
     = (Raise (KeyError (VStr "not-a-real-icon")), empty_world).
Proof.
  assert (H1 : ({[ "icon" := VStr "not-a-real-icon" ]} : gmap string PyVal)
                 !! "icon" = Some (VStr "not-a-real-icon")) by reflexivity.
  assert (H2 : ChannelOutput.ICONS !! "not-a-real-icon" = None)
    by (vm_compute; reflexivity).
  split; [exact H1|]. split; [exact H2|].
  exact (C3_handle_unknown_icon sink "/alias/member_update" "hello"
           {[ "icon" := VStr "not-a-real-icon" ]} (Some guild_G)
           "not-a-real-icon" empty_world H1 H2).
Defined.

Lemma C4_witness :
  find_user "alice" (Alias.ctx_guild ctx) = Some alice
  /\ find_user "bob" (Alias.ctx_guild ctx) = Some bob
  /\ StringBuilder_bool None [] = false
  /\ exists js w',
       Alias.add_alt find_user StringBuilder_str StringBuilder_bool
         ctx "alice" "bob" empty_world = (Ok tt, w')
       /\ journal_log w' = [js]
       /\ ChannelOutput.handle sink "/alias/alt/add" (js_guild js)
            (js_content js) (js_attributes js) w'
          = (Raise (KeyError (VStr "item_add")), w').
Proof.
  assert (H1 : find_user "alice" (Alias.ctx_guild ctx) = Some alice)
    by reflexivity.
  assert (H2 : find_user "bob" (Alias.ctx_guild ctx) = Some bob)
    by reflexivity.
  assert (H3 : StringBuilder_bool None [] = false) by reflexivity.
  split; [exact H1|]. split; [exact H2|]. split; [exact H3|].
  destruct (C4_alt_icons_not_in_registry find_user StringBuilder_str
              StringBuilder_bool ctx "alice" "bob" alice bob empty_world
              H1 H2 H3) as (_ & _ & _ & (js & w' & Hrun & Hlog & _ & Hraise) & _).
  exists js, w'. split; [exact Hrun|]. split; [exact Hlog|]. apply Hraise.
Defined.

Lemma C5_witness :
  exists kw w',
    DirectMessage.handle dm "/alts" (Some guild_G) "Added X and Y" ∅
      empty_world = (Ok tt, w')
    /\ outbox w' = [mkMessage (ToUser alice) kw]
    /\ kw !! "content" = Some (VStr ("[" ++ "Test Guild" ++ "] " ++ "Added X and Y")).
Proof.
  destruct (C5_dm_scope_prefix dm "/alts" "Added X and Y" ∅ (Some guild_G)
              empty_world) as (r & w' & Hrun & Hsent & Hok).
  specialize (Hok eq_refl eq_refl). subst r.
  destruct Hsent as [(e & He & _) | (_ & kw & Hout & Hsome & _)];
    [discriminate He|].
  exists kw, w'. split; [exact Hrun|]. split; [exact Hout|].
  exact (Hsome guild_G eq_refl).
Defined.

Lemma C6_witness :
  (forall v, attachments !! "file" = Some v ->
     exists f, v = VFile f /\ open_file world f)
  /\ (forall v, attachments !! "files" = Some v ->
        exists fs, v = VList (VFile <$> fs) /\ Forall (open_file world) fs)
  /\ exists kw w' picture' report' notes',
       DirectMessage.handle dm "/alts" None "see attached" attachments world
       = (Ok tt, w')
       /\ outbox w' = [mkMessage (ToUser alice) kw]
       /\ kw !! "embed" = Some (VEmbed rich)
       /\ kw !! "file" = Some (VFile picture')
       /\ kw !! "files" = Some (VList [VFile report'; VFile notes'])
       /\ duplicate_of world w' picture picture'
       /\ duplicate_of world w' report report'
       /\ duplicate_of world w' notes notes'
       /\ NoDup [fp picture'; fp report'; fp notes'].
Proof.
  assert (H1 : forall v, attachments !! "file" = Some v ->
                 exists f, v = VFile f /\ open_file world f).
  { intros v Hv. vm_compute in Hv. injection Hv as <-.
    exists picture. split; [reflexivity|]. by eexists. }
  assert (H2 : forall v, attachments !! "files" = Some v ->
                 exists fs, v = VList (VFile <$> fs)
                            /\ Forall (open_file world) fs).
  { intros v Hv. vm_compute in Hv. injection Hv as <-.
    exists [report; notes]. split; [reflexivity|].
    repeat constructor; by eexists. }
  split; [exact H1|]. split; [exact H2|].
  destruct (C6_dm_payload dm "/alts" "see attached" attachments None world
              H1 H2)
    as (kw & w' & Hrun & Hout & Hembed & _ & Hfile & _ & Hfiles & _).
  destruct (Hfile picture eq_refl) as (picture' & Hkfile & Hdup).
  destruct (Hfiles [report; notes] eq_refl)
    as (fs' & Hkfiles & Hdups & Hnodup & Hfresh).
  destruct fs' as [|report' [|notes' [|extra fs']]];
    try (exfalso; apply Forall2_length in Hdups; discriminate Hdups).
  apply Forall2_cons_1 in Hdups as [Hd1 Hdups].
  apply Forall2_cons_1 in Hdups as [Hd2 _].
  exists kw, w', picture', report', notes'.
  split; [exact Hrun|]. split; [exact Hout|]. split; [exact Hembed|].
  split; [exact Hkfile|]. split; [exact Hkfiles|].
  split; [exact Hdup|]. split; [exact Hd1|]. split; [exact Hd2|].
  apply NoDup_cons. split; [exact (Hfresh picture' Hkfile) | exact Hnodup].
Defined.

Lemma C7_witness :
  Journal.matches "/alias" true "/alias/member_update" = true
  /\ Journal.matches "/alias/member_update" false "/alias/member_update" = true.
Proof.
  destruct (C7_matching_rule "/alias" "/alias/member_update") as (Hrec & _ & _).
  destruct (C7_matching_rule "/alias/member_update" "/alias/member_update")
    as (_ & Hexact & _).
  split.
  - apply Hrec. right. exists "member_update". reflexivity.
  - apply Hexact. reflexivity.
Defined.

Lemma C8_witness :
  ChannelOutput.user_filter filtered_sink = Some nonempty_content
  /\ (Journal.check filtered_sink "/alias" (Some guild_G) "hello" ∅ = Ok true
      <-> ChannelOutput.filter filtered_sink "/alias" (Some guild_G) "hello" ∅
          = Ok true
          /\ nonempty_content "/alias" (Some guild_G) "hello" ∅ = Ok true).
Proof.
  assert (H : ChannelOutput.user_filter filtered_sink = Some nonempty_content)
    by reflexivity.
  split; [exact H|].
  exact (C8_user_filter_composed filtered_sink "/alias" "hello" ∅
           (Some guild_G) nonempty_content H).
Defined.

Lemma C10_witness :
  member_avatar alice <> member_avatar alice_after
  /\ (forall rest, member_avatar_url alice_after <> String "." rest)
  /\ exists e,
       Alias.member_update download_link user_discrim StringBuilder_str
         7 alice alice_after empty_world = (Raise e, empty_world)
       /\ e = ValueError
                ("Avatar URL does not match extension regex: "
                 ++ member_avatar_url alice_after).
Proof.
  assert (H1 : member_avatar alice <> member_avatar alice_after)
    by (vm_compute; discriminate).
  assert (H2 : forall rest, member_avatar_url alice_after <> String "." rest)
    by (intros rest; vm_compute; discriminate).
  split; [exact H1|]. split; [exact H2|].
  destruct (C10_member_update_regex_anchored download_link user_discrim
              StringBuilder_str 7 alice alice_after empty_world H1 H2)
    as (e & Hrun & Herr).
  exists e. split; [exact Hrun|]. exact (Herr (VBytes []) eq_refl).
Defined.

End Witnesses.

(** ** What [EXTENSION_REGEX] matches *)

Section ExtensionRegex.

Import Alias.

Lemma match_here_plus cl r s i caps :
  match_here (Plus cl :: r) s i caps
  = match s with
    | String c s' =>
        if class_ok cl c then plus_more cl (match_here r) s' (S i) caps
        else None
    | EmptyString => None
    end.
Proof. by destruct s. Qed.

Lemma match_here_one cl r s i caps :
  match_here (One cl :: r) s i caps
  = match s with
    | String c s' => if class_ok cl c then match_here r s' (S i) caps else None
    | EmptyString => None
    end.
Proof. by destruct s. Qed.

Lemma plus_more_cons cl k c s i caps :
  plus_more cl k (String c s) i caps
  = if class_ok cl c then
      match plus_more cl k s (S i) caps with
      | Some res => Some res
      | None => k (String c s) i caps
      end
    else k (String c s) i caps.
Proof. reflexivity. Qed.

Lemma string_app_nil_l (s : string) : "" ++ s = s.
Proof. reflexivity. Qed.

Lemma match_end_anchor s i caps caps' :
  match_here [EndAnchor] s i caps = Some caps'
  <-> caps' = caps /\ (s = "" \/ s = String newline "").
Proof.
  destruct s as [|c [|d s]]; cbn [match_here].
  - split; [intros [= <-]; eauto | intros [-> _]; reflexivity].
  - destruct (Ascii.eqb_spec c newline) as [->|Hne].
    + split; [intros [= <-]; eauto | intros [-> _]; reflexivity].
    + split; [discriminate | intros [_ [H|H]]; congruence].
  - split; [discriminate | intros [_ [H|H]]; discriminate].
Qed.

Lemma class_any_newline : class_ok AnyChar newline = false.
Proof. reflexivity. Qed.

Lemma plus_more_any s i caps caps' :
  plus_more AnyChar (match_here [EndAnchor]) s i caps = Some caps'
  <-> caps' = caps
      /\ exists rest tail,
           s = rest ++ tail /\ all_chars not_newline rest = true
           /\ (tail = "" \/ tail = String newline "").
Proof.
  revert i caps'. induction s as [|c s IH]; intros i caps'.
  - cbn [plus_more]. rewrite match_end_anchor. split.
    + intros [-> _]. split; [reflexivity|]. exists "", "". eauto.
    + intros [-> _]. eauto.
  - rewrite plus_more_cons. destruct (class_ok AnyChar c) eqn:Ec.
    + destruct (plus_more AnyChar (match_here [EndAnchor]) s (S i) caps)
        as [res|] eqn:Em.
      * apply IH in Em as (-> & rest & tail & -> & Hrest & Htail). split.
        -- intros [= <-]. split; [reflexivity|].
           exists (String c rest), tail. rewrite string_cons_app.
           split; [reflexivity|]. split; [|exact Htail].
           cbn [all_chars]. unfold not_newline at 1. by rewrite Ec, Hrest.
        -- by intros [-> _].
      * rewrite match_end_anchor. split.
        -- intros [_ [H|H]]; [discriminate|].
           injection H as -> _. by rewrite class_any_newline in Ec.
        -- intros (_ & rest & tail & Hs & Hrest & Htail). exfalso.
           destruct rest as [|d rest].
           ++ rewrite string_app_nil_l in Hs. subst tail.
              destruct Htail as [H|H]; [discriminate|].
              injection H as -> _. by rewrite class_any_newline in Ec.
           ++ rewrite string_cons_app in Hs. injection Hs as <- ->.
              cbn [all_chars] in Hrest. apply andb_true_iff in Hrest as [_ Hrest].
              assert (Hsome : plus_more AnyChar (match_here [EndAnchor])
                                (rest ++ tail) (S i) caps = Some caps).
              { apply IH. split; [reflexivity|]. exists rest, tail. eauto. }
              congruence.
    + rewrite match_end_anchor. split.
      * intros [-> [H|H]]; [discriminate|]. split; [reflexivity|].
        exists "", (String c s). rewrite string_app_nil_l. eauto.
      * intros (-> & rest & tail & Hs & Hrest & Htail).
        split; [reflexivity|]. right.
        destruct rest as [|d rest].
        -- rewrite string_app_nil_l in Hs. subst tail.
           destruct Htail as [H|H]; [discriminate | exact H].
        -- rewrite string_cons_app in Hs. injection Hs as <- ->.
           cbn [all_chars] in Hrest. apply andb_true_iff in Hrest as [Hc _].
           unfold not_newline in Hc. congruence.
Qed.

Lemma match_tail s i caps caps' :
  match_here [Plus AnyChar; EndAnchor] s i caps = Some caps'
  <-> caps' = caps
      /\ exists rest tail,
           s = rest ++ tail /\ rest <> "" /\ all_chars not_newline rest = true
           /\ (tail = "" \/ tail = String newline "").
Proof.
  rewrite match_here_plus. destruct s as [|c s].
  - split; [discriminate|].
    intros (_ & rest & tail & Hs & Hne & _). destruct rest; [done|].
    rewrite string_cons_app in Hs. discriminate.
  - destruct (class_ok AnyChar c) eqn:Ec.
    + rewrite plus_more_any. split.
      * intros (-> & rest & tail & -> & Hrest & Htail). split; [reflexivity|].
        exists (String c rest), tail. rewrite string_cons_app.
        split; [reflexivity|]. split; [discriminate|]. split; [|exact Htail].
        cbn [all_chars]. unfold not_newline at 1. by rewrite Ec, Hrest.
      * intros (-> & rest & tail & Hs & Hne & Hrest & Htail).
        split; [reflexivity|]. destruct rest as [|d rest]; [done|].
        rewrite string_cons_app in Hs. injection Hs as <- ->.
        cbn [all_chars] in Hrest. apply andb_true_iff in Hrest as [_ Hrest].
        exists rest, tail. eauto.
    + split; [discriminate|].
      intros (_ & rest & tail & Hs & Hne & Hrest & _).
      destruct rest as [|d rest]; [done|].
      rewrite string_cons_app in Hs. injection Hs as <- ->.
      cbn [all_chars] in Hrest. apply andb_true_iff in Hrest as [Hc _].
      unfold not_newline in Hc. congruence.
Qed.

(** The nodes after the letters of the group. *)
Local Abbreviation after_letters :=
  (match_here [GroupClose; One (Lit "?"); Plus AnyChar; EndAnchor]).

Lemma after_letters_eq s i caps :
  after_letters s i caps
  = match s with
    | String c s' =>
        if Ascii.eqb "?" c then
          match_here [Plus AnyChar; EndAnchor] s' (S i)
            (mkCaps (opened caps) ((fun o => (o, i)) <$> opened caps))
        else None
    | EmptyString => None
    end.
Proof. by destruct s. Qed.

Lemma lower_not_question c : lower c = true -> Ascii.eqb "?" c = false.
Proof.
  intros Hc. destruct (Ascii.eqb_spec "?" c) as [<-|]; [|reflexivity].
  discriminate Hc.
Qed.

Lemma plus_more_letters s i caps caps' :
  plus_more (Range "a" "z") after_letters s i caps = Some caps'
  <-> exists ext s2,
        s = ext ++ String "?" s2 /\ all_chars lower ext = true
        /\ match_here [Plus AnyChar; EndAnchor] s2 (S (i + String.length ext))
             (mkCaps (opened caps)
                ((fun o => (o, i + String.length ext)) <$> opened caps))
           = Some caps'.
Proof.
  revert i. induction s as [|c s IH]; intros i.
  - cbn [plus_more]. rewrite after_letters_eq. split; [discriminate|].
    intros (ext & s2 & Hs & _). destruct ext; discriminate Hs.
  - rewrite plus_more_cons. fold (lower c). destruct (lower c) eqn:Ec.
    + assert (Hk : after_letters (String c s) i caps = None).
      { rewrite after_letters_eq. by rewrite (lower_not_question c Ec). }
      rewrite Hk.
      assert (Hsame : match plus_more (Range "a" "z") after_letters s (S i) caps with
                      | Some res => Some res
                      | None => None
                      end = plus_more (Range "a" "z") after_letters s (S i) caps)
        by (by destruct (plus_more _ _ s (S i) caps)).
      rewrite Hsame, IH. split.
      * intros (ext & s2 & -> & Hext & Hm). exists (String c ext), s2.
        rewrite string_cons_app. split; [reflexivity|].
        split; [cbn [all_chars]; by rewrite Ec, Hext|].
        cbn [String.length]. by rewrite Nat.add_succ_r.
      * intros (ext & s2 & Hs & Hext & Hm). destruct ext as [|d ext].
        -- rewrite string_app_nil_l in Hs. injection Hs as -> _.
           vm_compute in Ec. discriminate Ec.
        -- rewrite string_cons_app in Hs. injection Hs as <- ->.
           cbn [all_chars] in Hext. apply andb_true_iff in Hext as [_ Hext].
           exists ext, s2. split; [reflexivity|]. split; [exact Hext|].
           cbn [String.length] in Hm. by rewrite Nat.add_succ_r in Hm.
    + rewrite after_letters_eq. split.
      * destruct (Ascii.eqb_spec "?" c) as [<-|]; [|discriminate].
        intros Hm. exists "", s. rewrite string_app_nil_l.
        split; [reflexivity|]. split; [reflexivity|].
        cbn [String.length]. by rewrite Nat.add_0_r.
      * intros (ext & s2 & Hs & Hext & Hm). destruct ext as [|d ext].
        -- rewrite string_app_nil_l in Hs. injection Hs as <- <-.
           cbn [String.length] in Hm. rewrite Nat.add_0_r in Hm.
           rewrite Ascii.eqb_refl. exact Hm.
        -- rewrite string_cons_app in Hs. injection Hs as <- ->.
           cbn [all_chars] in Hext. apply andb_true_iff in Hext as [Hc _].
           congruence.
Qed.

Lemma substring_app_l (a b : string) :
  substring 0 (String.length a) (a ++ b) = a.
Proof.
  induction a as [|c a IH]; [by destruct b|].
  rewrite string_cons_app. cbn [String.length substring]. by rewrite IH.
Qed.

Lemma re_match_unfold (c : ascii) (s : string) :
  re_match EXTENSION_REGEX (String "." (String c s))
  = if lower c then
      match plus_more (Range "a" "z") after_letters s 2 (mkCaps (Some 1) None) with
      | Some caps =>
          match group1 caps with
          | Some (a, b) => Some (substring a (b - a) (String "." (String c s)))
          | None => Some EmptyString
          end
      | None => None
      end
    else None.
Proof.
  unfold re_match, EXTENSION_REGEX. rewrite match_here_one.
  cbn [class_ok]. rewrite Ascii.eqb_refl.
  change (match_here (GroupOpen :: ?r) ?s ?i ?caps)
    with (match_here r s i (mkCaps (Some i) (group1 caps))).
  rewrite match_here_plus. fold (lower c). by destruct (lower c).
Qed.

Lemma group_text (c : ascii) (ext rest : string) :
  substring 1 (2 + String.length ext - 1)
    (String "." (String c (ext ++ rest)))
  = String c ext.
Proof.
  replace (2 + String.length ext - 1) with (S (String.length ext)) by lia.
  cbn [substring]. by rewrite substring_app_l.
Qed.

(** The pattern matches a string, with [ext] as its group, exactly when the
    string is a full stop, the lower-case letters [ext] (at least one), a
    question mark and at least one more character, none of them a newline
    but for one that may end the string. *)
Lemma re_match_spec (url ext : string) :
  re_match EXTENSION_REGEX url = Some ext
  <-> ext <> ""
      /\ all_chars lower ext = true
      /\ exists rest tail,
           url = "." ++ ext ++ "?" ++ rest ++ tail
           /\ rest <> ""
           /\ all_chars not_newline rest = true
           /\ (tail = "" \/ tail = String newline "").
Proof.
  split.
  - intros Hm. destruct (re_match_starts_with_dot url ext Hm) as [s1 ->].
    destruct s1 as [|c s]; [discriminate Hm|].
    rewrite re_match_unfold in Hm. destruct (lower c) eqn:Ec; [|discriminate].
    destruct (plus_more _ _ s 2 _) as [caps|] eqn:Em; [|discriminate].
    apply plus_more_letters in Em as (ext' & s2 & -> & Hext & Htail).
    apply match_tail in Htail as (-> & rest & tail & -> & Hne & Hrest & Htail).
    cbn [group1 opened fmap option_fmap option_map] in Hm.
    rewrite group_text in Hm. injection Hm as <-.
    split; [discriminate|]. split; [cbn [all_chars]; by rewrite Ec, Hext|].
    exists rest, tail. split; [reflexivity|]. eauto.
  - intros (Hne & Hext & rest & tail & -> & Hrne & Hrest & Htail).
    destruct ext as [|c ext]; [done|].
    cbn [all_chars] in Hext. apply andb_true_iff in Hext as [Hc Hext].
    change ("." ++ String c ext ++ "?" ++ rest ++ tail)
      with (String "." (String c (ext ++ String "?" (rest ++ tail)))).
    rewrite re_match_unfold, Hc.
    assert (Em : plus_more (Range "a" "z") after_letters
                   (ext ++ String "?" (rest ++ tail)) 2 (mkCaps (Some 1) None)
                 = Some (mkCaps (Some 1) (Some (1, 2 + String.length ext)))).
    { apply plus_more_letters. exists ext, (rest ++ tail).
      split; [reflexivity|]. split; [exact Hext|].
      apply match_tail. split; [reflexivity|]. exists rest, tail. eauto. }
    rewrite Em. cbn [group1]. by rewrite group_text.
Qed.

(** X15. [EXTENSION_REGEX.match] succeeds on a string, with [ext] as its
    group 1, exactly when the string is a full stop, then the lower-case
    letters [ext] (at least one), then a question mark, then at least one
    more character, none of them a newline but for one that may end the
    string. *)
Theorem X15_extension_regex_matches (url ext : string) :
  re_match EXTENSION_REGEX url = Some ext
  <-> ext <> ""
      /\ all_chars lower ext = true
      /\ exists rest tail,
           url = "." ++ ext ++ "?" ++ rest ++ tail
           /\ rest <> ""
           /\ all_chars not_newline rest = true
           /\ (tail = "" \/ tail = String newline "").
Proof. apply re_match_spec. Qed.

End ExtensionRegex.

(** ** More on the channel sink *)

Section ChannelSinkMore.

Import ChannelOutput.

Variable self : ChannelOutputListener.
Variables (path : string) (content : string).
Variable attributes : gmap string PyVal.

(** X1. Whatever the event, the handler of a channel sink either sends one
    message, to its own channel, with [content] as the only keyword, or
    raises and leaves the world as it was. The text sent is the content
    (no icon, or an icon that is [None]) or glyph, space and content (an
    icon that names a key of [ICONS]). *)
Theorem X1_channel_handle_outcome (guild : option Guild) (w : World) :
  (exists text,
      handle self path guild content attributes w
      = (Ok tt,
         set_outbox
           (outbox w ++ [mkMessage (ToChannel (channel self))
                           {[ "content" := VStr text ]}]) w)
      /\ ((text = content
           /\ (attributes !! "icon" = None \/ attributes !! "icon" = Some VNone))
          \/ exists name glyph,
               attributes !! "icon" = Some (VStr name)
               /\ ICONS !! name = Some glyph
               /\ text = glyph ++ " " ++ content))
  \/ (exists e, handle self path guild content attributes w = (Raise e, w)).
Proof.
  unfold handle. destruct (attributes !! "icon") as [v|] eqn:Eicon;
    cbn [from_option id].
  - destruct v; unfold bind, lift, ret, ICONS_getitem; cbn [hashable];
      try (right; eexists; reflexivity).
    + left. eexists. split; [reflexivity|]. left. eauto.
    + destruct (ICONS !! s) as [glyph|] eqn:Eg.
      * left. eexists. split; [reflexivity|]. right. eauto.
      * right. eexists. reflexivity.
  - left. eexists. split; [reflexivity|]. left. eauto.
Qed.

(** X2. An icon that is neither [None] nor a string makes the handler
    raise before it sends: [TypeError] for a list, which cannot be hashed,
    and [KeyError] on the value otherwise. *)
Theorem X2_channel_handle_icon_not_a_string
    (guild : option Guild) (v : PyVal) (w : World) :
  attributes !! "icon" = Some v ->
  v <> VNone ->
  (forall name, v <> VStr name) ->
  handle self path guild content attributes w
  = (Raise (match v with
            | VList _ => TypeError "unhashable type"
            | _ => KeyError v
            end), w).
Proof.
  intros Hicon Hnone Hstr. unfold handle. rewrite Hicon.
  cbn [from_option id].
  destruct v; unfold bind, lift, ICONS_getitem; cbn [hashable];
    try reflexivity.
  - done.
  - by destruct (Hstr s).
Qed.

(** X3. A channel sink is text-only: what it does depends on the content
    and on the [icon] attribute alone. Adding or replacing any other
    attribute (an embed, a file, files, the keys of a producer), another
    path or another scope changes nothing; and an icon that is [None] is as
    good as no icon. *)
Theorem X3_channel_handle_reads_icon_only
    (guild guild' : option Guild) (path' : string)
    (k : string) (v : PyVal) (w : World) :
  (k <> "icon" ->
   handle self path guild content (<[ k := v ]> attributes) w
   = handle self path' guild' content attributes w)
  /\ handle self path guild content (<[ "icon" := VNone ]> attributes) w
     = handle self path' guild' content (delete "icon" attributes) w.
Proof.
  split.
  - intros Hk. unfold handle. by rewrite lookup_insert_ne.
  - unfold handle. by rewrite lookup_insert_eq, lookup_delete_eq.
Qed.

End ChannelSinkMore.

(** ** More on the direct-message sink *)

Section DirectSinkMore.

Import DirectMessage.

Variable self : DirectMessageListener.
Variables (path : string) (content : string).
Variable attributes : gmap string PyVal.

Ltac run_step :=
  match goal with
  | |- context [copy_discord_file ?v ?w] =>
      let E := fresh "Ecopy" in
      destruct (copy_discord_file v w) as [[?|?] ?] eqn:E;
      apply copy_outbox in E
  | |- context [mapM copy_discord_file ?l ?w] =>
      let E := fresh "Emap" in
      destruct (mapM copy_discord_file l w) as [[?|?] ?] eqn:E;
      apply mapM_copy_outbox in E
  | |- context [py_iter ?v] => destruct (py_iter v)
  end; cbv beta iota zeta.

Ltac key_cases k :=
  destruct (decide (k = "content")); destruct (decide (k = "embed"));
  destruct (decide (k = "file")); destruct (decide (k = "files"));
  simplify_eq;
  repeat first
    [ rewrite lookup_insert_eq
    | rewrite lookup_insert_ne by congruence
    | rewrite lookup_singleton_eq
    | rewrite lookup_singleton_ne by congruence ].

(** X4. A direct-message sink ignores every attribute but [embed], [file]
    and [files], and the path: adding or replacing any other attribute, an
    icon for one, changes nothing. *)
Theorem X4_dm_handle_ignores_other_keys
    (guild : option Guild) (path' : string)
    (k : string) (v : PyVal) (w : World) :
  k <> "embed" -> k <> "file" -> k <> "files" ->
  handle self path guild content (<[ k := v ]> attributes) w
  = handle self path' guild content attributes w.
Proof.
  intros H1 H2 H3. unfold handle.
  by rewrite !lookup_insert_ne.
Qed.

(** X5. The payload of a delivered direct message has the key [content],
    the keys among [embed], [file] and [files] that the attributes have,
    and no other key. *)
Theorem X5_dm_payload_keys (guild : option Guild) (w w' : World) :
  handle self path guild content attributes w = (Ok tt, w') ->
  exists kw,
    outbox w' = (outbox w ++ [mkMessage (ToUser (user self)) kw])%list
    /\ forall k,
         is_Some (kw !! k)
         <-> k = "content"
             \/ ((k = "embed" \/ k = "file" \/ k = "files")
                 /\ is_Some (attributes !! k)).
Proof.
  unfold handle.
  destruct (attributes !! "embed") as [ve|] eqn:Ee;
    destruct (attributes !! "file") as [vf|] eqn:Ef;
    destruct (attributes !! "files") as [vfs|] eqn:Efs;
    unfold bind, ret, lift, raise; cbv beta iota zeta;
    repeat run_step; try discriminate;
    unfold send; intros [= <-]; eexists;
    (split; [cbn [outbox set_outbox]; f_equal; congruence|]);
    intros k; key_cases k; rewrite ?Ee, ?Ef, ?Efs;
    split; intros H; try (by eauto); try (by inversion H);
    try (destruct H as [H|[[H|[H|H]] H']]; try done; by inversion H').
Qed.

(** X6. Edge cases of [files], for an event without a [file]. An empty
    list is forwarded as an empty list and no stream is touched. A value
    that is no sequence ([None], or a single file or embed or member that is
    not wrapped in a list) makes the handler raise [TypeError]; nothing is
    sent then and the world is as before. *)
Theorem X6_dm_files_edge_cases (guild : option Guild) (v : PyVal) (w : World) :
  attributes !! "file" = None ->
  attributes !! "files" = Some v ->
  (v = VList [] ->
   exists kw,
     handle self path guild content attributes w
     = (Ok tt, set_outbox (outbox w ++ [mkMessage (ToUser (user self)) kw]) w)
     /\ kw !! "files" = Some (VList []))
  /\ (match v with
      | VNone | VEmbed _ | VFile _ | VMember _ | VChanges _ => True
      | _ => False
      end ->
      handle self path guild content attributes w
      = (Raise (TypeError "object is not iterable"), w)).
Proof.
  intros Hf Hfs. unfold handle. rewrite Hf, Hfs. split.
  - intros ->. destruct (attributes !! "embed");
      (eexists; split; [reflexivity|]; by rewrite lookup_insert_eq).
  - intros Hv. destruct (attributes !! "embed"); destruct v; try done.
Qed.

Lemma grown_streams (w w1 : World) (extra : list Stream) (f : File) :
  streams w1 = (streams w ++ extra)%list ->
  open_file w f ->
  open_file w1 f /\ fresh_stream w1 f = fresh_stream w f.
Proof.
  intros Hw1 [s Hs]. unfold open_file, fresh_stream. rewrite Hw1.
  rewrite lookup_app_l by (by eapply lookup_lt_Some). rewrite Hs. eauto.
Qed.

(** X14. Two direct-message sinks that handle, one after the other, the
    same event with the open files [fs]: both deliver, and each message
    carries its own duplicates of [fs], in order. All the duplicates are on
    different streams, and in the world after both deliveries every one of
    them still yields all the bytes of its original, whatever else is read
    before it: reading the files of one sink does not empty those of the
    other. *)
Theorem X14_two_dm_sinks_get_their_own_copies
    (dm1 dm2 : DirectMessageListener) (guild : option Guild)
    (fs : list File) (w : World) :
  attributes !! "file" = None ->
  attributes !! "files" = Some (VList (VFile <$> fs)) ->
  Forall (open_file w) fs ->
  exists kw1 kw2 w1 w2 fs1 fs2,
    handle dm1 path guild content attributes w = (Ok tt, w1)
    /\ handle dm2 path guild content attributes w1 = (Ok tt, w2)
    /\ outbox w2 = (outbox w ++ [mkMessage (ToUser (user dm1)) kw1;
                                 mkMessage (ToUser (user dm2)) kw2])%list
    /\ kw1 !! "files" = Some (VList (VFile <$> fs1))
    /\ kw2 !! "files" = Some (VList (VFile <$> fs2))
    /\ Forall2 (duplicate_of w w2) fs fs1
    /\ Forall2 (duplicate_of w w2) fs fs2
    /\ NoDup (fp <$> (fs1 ++ fs2)%list).
Proof.
  intros Hf Hfs Hopen.
  pose proof (handle_run dm1 path content attributes guild w None (Some fs)
                Hf Hfs Hopen) as Hrun1.
  cbn [option_list option_rect from_option id app length] in Hrun1.
  set (c := match guild with
            | Some g => "[" ++ guild_name g ++ "] " ++ content
            | None => content
            end) in *.
  set (kw1 := built_kwargs attributes c (length (streams w)) None (Some fs)) in *.
  set (w1 := set_outbox (outbox w ++ [mkMessage (ToUser (user dm1)) kw1])
               (set_streams (streams w ++ (fresh_stream w <$> fs)) w)) in *.
  assert (Hw1 : streams w1 = (streams w ++ (fresh_stream w <$> fs))%list)
    by reflexivity.
  assert (Hopen1 : Forall (open_file w1) fs).
  { eapply Forall_impl; [exact Hopen|]. intros f Hof.
    by apply (grown_streams w w1 _ f Hw1). }
  assert (Hfresh : fresh_stream w1 <$> fs = fresh_stream w <$> fs).
  { apply Forall_fmap_ext_1. eapply Forall_impl; [exact Hopen|].
    intros f Hof. by apply (grown_streams w w1 _ f Hw1). }
  pose proof (handle_run dm2 path content attributes guild w1 None (Some fs)
                Hf Hfs Hopen1) as Hrun2.
  cbn [option_list option_rect from_option id app length] in Hrun2.
  fold c in Hrun2.
  set (kw2 := built_kwargs attributes c (length (streams w1)) None (Some fs)) in *.
  set (w2 := set_outbox (outbox w1 ++ [mkMessage (ToUser (user dm2)) kw2])
               (set_streams (streams w1 ++ (fresh_stream w1 <$> fs)) w1)) in *.
  assert (Hw2 : streams w2
                = (streams w ++ [] ++ (fresh_stream w <$> fs)
                     ++ (fresh_stream w <$> fs))%list).
  { subst w2. cbn [streams set_outbox set_streams].
    rewrite Hfresh, Hw1. by rewrite <- app_assoc. }
  assert (Hw2' : streams w2
                 = (streams w ++ (fresh_stream w <$> fs)
                      ++ (fresh_stream w <$> fs) ++ [])%list).
  { rewrite Hw2. cbn [app]. by rewrite app_nil_r. }
  assert (Hlen1 : length (streams w1) = length (streams w) + length fs).
  { rewrite Hw1, length_app, length_fmap. reflexivity. }
  exists kw1, kw2, w1, w2,
    (copies (length (streams w) + 0) fs),
    (copies (length (streams w) + length fs) fs).
  split; [exact Hrun1|]. split; [exact Hrun2|].
  split; [subst w2 w1; cbn [outbox set_outbox set_streams];
          by rewrite <- app_assoc|].
  split.
  { subst kw1. unfold built_kwargs. cbn [option_list option_rect length].
    by rewrite lookup_insert_eq. }
  split.
  { subst kw2. unfold built_kwargs. cbn [option_list option_rect length].
    rewrite lookup_insert_eq, Hlen1. by rewrite Nat.add_0_r. }
  split.
  { apply (copies_duplicate w w2 [] (fresh_stream w <$> fs) fs Hw2 Hopen). }
  split.
  { pose proof (copies_duplicate w w2 (fresh_stream w <$> fs) [] fs Hw2' Hopen)
      as H.
    by rewrite length_fmap in H. }
  rewrite fmap_app, !copies_fp, Nat.add_0_r, <- seq_app. apply NoDup_seq.
Qed.

End DirectSinkMore.

(** ** More on the alias cog *)

Section AliasCogMore.

Import Alias.

Variable download_link : string -> Result PyVal.
Variable user_discrim : Member -> string.
Variable find_user : string -> Guild -> option Member.
Variable StringBuilder_str : option string -> list SbOp -> string.
Variable StringBuilder_bool : option string -> list SbOp -> bool.

(** X7. When nothing that is tracked changed (same avatar, same name, and
    a nickname that is the same or was removed), [member_update] returns
    without a write, an event or a download. In particular the removal of a
    nickname is not recorded. *)
Theorem X7_member_update_nothing_tracked
    (timestamp : N) (before after : Member) (w : World) :
  member_avatar before = member_avatar after ->
  member_name before = member_name after ->
  member_nick before = member_nick after \/ member_nick after = None ->
  member_update download_link user_discrim StringBuilder_str
    timestamp before after w = (Ok tt, w).
Proof.
  intros Havatar Hname Hnick. unfold member_update.
  rewrite (bool_decide_eq_false_2 (member_avatar before <> member_avatar after))
    by (intros H; by apply H).
  rewrite (bool_decide_eq_false_2 (member_name before <> member_name after))
    by (intros H; by apply H).
  assert (Hn : bool_decide (member_nick before <> member_nick after)
               && bool_decide (member_nick after <> None) = false).
  { destruct Hnick as [Hnick|Hnick].
    - rewrite (bool_decide_eq_false_2 _ (fun H => H Hnick)). reflexivity.
    - rewrite (bool_decide_eq_false_2 (member_nick after <> None)
                 (fun H => H Hnick)).
      apply andb_false_r. }
  rewrite Hn. reflexivity.
Qed.

Lemma set_sql_log_twice (a b : list SqlOp) (w : World) :
  set_sql_log (sql_log (set_sql_log (sql_log w ++ a) w) ++ b)
    (set_sql_log (sql_log w ++ a) w)
  = set_sql_log (sql_log w ++ a ++ b) w.
Proof. unfold set_sql_log. cbn. by rewrite <- app_assoc. Qed.

Lemma set_sql_log_nil (w : World) : set_sql_log (sql_log w ++ []) w = w.
Proof. unfold set_sql_log. rewrite app_nil_r. by destruct w. Qed.

(** X8. When the avatar is unchanged and the name or the nickname changed
    (the nickname to a new one, not to none), [member_update] cannot fail
    and does not depend on the download: it records the new name, then the
    new nickname, each only if it changed, and hands the journal one event
    at [member/update], scoped to the guild of the member, with the icon
    [person] and a content that lists the same changes in the same order. *)
Theorem X8_member_update_without_avatar
    (timestamp : N) (before after : Member) (w : World) :
  member_avatar before = member_avatar after ->
  member_name before <> member_name after
  \/ (member_nick before <> member_nick after /\ member_nick after <> None) ->
  let names := if decide (member_name before = member_name after)
               then [] else [member_name after] in
  let nicks := if decide (member_nick before = member_nick after)
               then [] else option_list (member_nick after) in
  exists js,
    member_update download_link user_discrim StringBuilder_str
      timestamp before after w
    = (Ok tt,
       set_journal_log (journal_log w ++ [js])
         (set_sql_log
            (sql_log w ++ (AddUsername before timestamp <$> names)
                       ++ (AddNickname before timestamp <$> nicks)) w))
    /\ js_subpath js = "member/update"
    /\ js_guild js = Some (member_guild before)
    /\ js_content js
       = "Member " ++ user_discrim before ++ " was updated: "
         ++ StringBuilder_str (Some ", ")
              (((fun n => SbWrite ("name: " ++ n)) <$> names)
               ++ ((fun n => SbWrite ("nick: " ++ n)) <$> nicks))%list
    /\ js_attributes js !! "icon" = Some (VStr "person")
    /\ js_attributes js !! "before" = Some (VMember before)
    /\ js_attributes js !! "after" = Some (VMember after).
Proof.
  intros Havatar Hchanged names nicks. subst names nicks.
  unfold member_update.
  rewrite (bool_decide_eq_false_2 (member_avatar before <> member_avatar after))
    by (intros H; by apply H).
  destruct (decide (member_name before = member_name after)) as [Hname|Hname];
    destruct (decide (member_nick before = member_nick after)) as [Hnick|Hnick];
    destruct (member_nick after) as [n|] eqn:En;
    try (exfalso; destruct Hchanged as [H|[H1 H2]]; congruence);
    repeat case_bool_decide; try done; try congruence;
    cbn [andb avatar_url username nickname];
    unfold MemberChanges_bool; cbn [avatar_url username nickname];
    rewrite ?(bool_decide_eq_true_2 (is_Some (Some _))) by eauto;
    rewrite ?(bool_decide_eq_false_2 (is_Some None)) by (by intros [? ?]);
    cbn [orb negb andb];
    unfold bind, ret, sql, journal_send; cbv beta iota;
    cbn [fmap list_fmap option_list option_rect app];
    rewrite ?set_sql_log_twice; cbn [app journal_log set_sql_log];
    (eexists; split; [reflexivity|]);
    cbn [js_subpath js_guild js_content js_attributes];
    (split; [reflexivity|]); (split; [reflexivity|]); (split; [reflexivity|]);
    (split; [by rewrite lookup_insert_eq|]);
    (split; [rewrite lookup_insert_ne by discriminate;
             by rewrite lookup_insert_eq|]);
    do 2 rewrite lookup_insert_ne by discriminate;
    by rewrite lookup_insert_eq.
Qed.

(** X9. When the avatar changed: a download that raises makes
    [member_update] raise the same error with the world as before; and when
    the download returns and the avatar URL is a full stop, lower-case
    letters [ext], a question mark and more, [member_update] records the
    avatar with [ext] as its extension first, then the new name and the new
    nickname if they changed, and hands the journal one event whose content
    lists the avatar URL first. *)
Theorem X9_member_update_with_avatar
    (timestamp : N) (before after : Member) (w : World) :
  member_avatar before <> member_avatar after ->
  let url := member_avatar_url after in
  let names := if decide (member_name before = member_name after)
               then [] else [member_name after] in
  let nicks := if decide (member_nick before = member_nick after)
               then [] else option_list (member_nick after) in
  (forall e,
      download_link url = Raise e ->
      member_update download_link user_discrim StringBuilder_str
        timestamp before after w = (Raise e, w))
  /\ (forall avatar ext rest,
        download_link url = Ok avatar ->
        url = "." ++ ext ++ "?" ++ rest ->
        ext <> "" -> all_chars lower ext = true ->
        rest <> "" -> all_chars not_newline rest = true ->
        exists js,
          member_update download_link user_discrim StringBuilder_str
            timestamp before after w
          = (Ok tt,
             set_journal_log (journal_log w ++ [js])
               (set_sql_log
                  (sql_log w ++ [AddAvatar before timestamp avatar ext]
                             ++ (AddUsername before timestamp <$> names)
                             ++ (AddNickname before timestamp <$> nicks)) w))
          /\ js_subpath js = "member/update"
          /\ js_guild js = Some (member_guild before)
          /\ js_content js
             = "Member " ++ user_discrim before ++ " was updated: "
               ++ StringBuilder_str (Some ", ")
                    ([SbWrite ("avatar: " ++ url)]
                     ++ ((fun n => SbWrite ("name: " ++ n)) <$> names)
                     ++ ((fun n => SbWrite ("nick: " ++ n)) <$> nicks))%list
          /\ js_attributes js !! "icon" = Some (VStr "person")).
Proof.
  intros Havatar url names nicks. subst url names nicks. split.
  - intros e Hdl. unfold member_update.
    rewrite (bool_decide_eq_true_2 _ Havatar).
    cbn [avatar_url username nickname].
    destruct (bool_decide (member_name before <> member_name after));
      destruct (bool_decide (member_nick before <> member_nick after)
                && bool_decide (member_nick after <> None));
      unfold MemberChanges_bool; cbn [avatar_url username nickname];
      rewrite (bool_decide_eq_true_2 (is_Some (Some (member_avatar_url after))))
        by eauto;
      cbn [orb negb]; unfold bind at 1; unfold bind at 1; unfold lift;
      by rewrite Hdl.
  - intros avatar ext rest Hdl Hurl Hext Hlower Hrest Hnl.
    assert (Hre : re_match EXTENSION_REGEX (member_avatar_url after) = Some ext).
    { apply re_match_spec. split; [exact Hext|]. split; [exact Hlower|].
      exists rest, "". rewrite Hurl.
      replace (rest ++ "") with rest
        by (clear; induction rest as [|c r IH]; [reflexivity|];
            by rewrite string_cons_app, <- IH).
      eauto. }
    unfold member_update.
    rewrite (bool_decide_eq_true_2 _ Havatar).
    destruct (decide (member_name before = member_name after)) as [Hname|Hname];
      destruct (decide (member_nick before = member_nick after)) as [Hnick|Hnick];
      destruct (member_nick after) as [n|] eqn:En;
      repeat case_bool_decide; try done; try congruence;
      cbn [andb avatar_url username nickname];
      unfold MemberChanges_bool; cbn [avatar_url username nickname];
      rewrite ?(bool_decide_eq_true_2 (is_Some (Some _))) by eauto;
      rewrite ?(bool_decide_eq_false_2 (is_Some None)) by (by intros [? ?]);
      cbn [orb negb andb];
      unfold bind, ret, lift, sql, journal_send; rewrite Hdl, Hre;
      cbv beta iota;
      cbn [fmap list_fmap option_list option_rect app];
      rewrite ?set_sql_log_twice; cbn [app journal_log set_sql_log];
      (eexists; split; [reflexivity|]);
      cbn [js_subpath js_guild js_content js_attributes];
      (split; [reflexivity|]); (split; [reflexivity|]); (split; [reflexivity|]);
      by rewrite lookup_insert_eq.
Qed.

(** X10. Provided an empty [StringBuilder] is false and one that was
    written to is true: [add_alt] records a pair exactly when both users
    are found. If one is missing it sends one dark red embed to the channel
    of the command and reacts with FAIL, without a write or an event. If
    both are found it records the pair, hands the journal one event at
    [alt/add] that names both mentions and carries both users, and reacts
    with SUCCESS, without a message. *)
Theorem X10_add_alt_outcomes
    (ctx : Context) (first_name second_name : string) (w : World) :
  StringBuilder_bool None [] = false ->
  (forall ops, ops <> [] -> StringBuilder_bool None ops = true) ->
  (find_user first_name (ctx_guild ctx) = None
   \/ find_user second_name (ctx_guild ctx) = None ->
   exists text,
     add_alt find_user StringBuilder_str StringBuilder_bool
       ctx first_name second_name w
     = (Ok tt,
        set_reactions (reactions w ++ [(ctx_message ctx, FAIL)])
          (set_outbox
             (outbox w ++
                [mkMessage (ToChannel (ctx_channel ctx))
                   {[ "embed" := VEmbed (mkEmbed dark_red (Some text)) ]}]) w)))
  /\ (forall first_user second_user,
        find_user first_name (ctx_guild ctx) = Some first_user ->
        find_user second_name (ctx_guild ctx) = Some second_user ->
        add_alt find_user StringBuilder_str StringBuilder_bool
          ctx first_name second_name w
        = (Ok tt,
           set_reactions (reactions w ++ [(ctx_message ctx, SUCCESS)])
             (set_journal_log
                (journal_log w ++
                   [mkJournalSend "alt/add" (Some (ctx_guild ctx))
                      ("Added " ++ member_mention first_user ++ " and "
                       ++ member_mention second_user
                       ++ " as possible alt accounts.")
                      (<[ "icon" := VStr "item_add" ]>
                       (<[ "users" := VList [VMember first_user;
                                             VMember second_user] ]> ∅))])
                (set_sql_log
                   (sql_log w ++ [AddPossibleAlt (ctx_guild ctx)
                                    (Some first_user) (Some second_user)])
                   w)))).
Proof.
  intros Hfalse Htrue. split.
  - intros Hmissing. unfold add_alt.
    destruct (find_user first_name (ctx_guild ctx)) as [u1|];
      destruct (find_user second_name (ctx_guild ctx)) as [u2|];
      try (exfalso; destruct Hmissing; discriminate);
      cbn [app]; rewrite Htrue by discriminate;
      eexists; reflexivity.
  - intros u1 u2 H1 H2. unfold add_alt. rewrite H1, H2, Hfalse.
    reflexivity.
Qed.

(** X11. [del_alt_chain]: if the user is not found it sends one dark red
    embed that names the user to the channel of the command and reacts with
    FAIL, without a write or an event; if the user is found it deletes the
    chain of that user, hands the journal one event at [alt/clear] and
    reacts with SUCCESS, without a message. *)
Theorem X11_del_alt_chain_outcomes (ctx : Context) (name : string) (w : World) :
  (find_user name (ctx_guild ctx) = None ->
   del_alt_chain find_user ctx name w
   = (Ok tt,
      set_reactions (reactions w ++ [(ctx_message ctx, FAIL)])
        (set_outbox
           (outbox w ++
              [mkMessage (ToChannel (ctx_channel ctx))
                 {[ "embed" :=
                      VEmbed (mkEmbed dark_red
                                (Some ("No user information found for `"
                                       ++ name ++ "`"))) ]}]) w)))
  /\ (forall user,
        find_user name (ctx_guild ctx) = Some user ->
        del_alt_chain find_user ctx name w
        = (Ok tt,
           set_reactions (reactions w ++ [(ctx_message ctx, SUCCESS)])
             (set_journal_log
                (journal_log w ++
                   [mkJournalSend "alt/clear" (Some (ctx_guild ctx))
                      ("Removed all alt accounts in " ++ member_mention user
                       ++ "'s chain")
                      (<[ "icon" := VStr "item_clear" ]>
                       (<[ "user" := VMember user ]> ∅))])
                (set_sql_log
                   (sql_log w ++ [AllDeletePossibleAlts (ctx_guild ctx) user])
                   w)))).
Proof.
  split.
  - intros Hnone. unfold del_alt_chain. rewrite Hnone. reflexivity.
  - intros user Hsome. unfold del_alt_chain. rewrite Hsome. reflexivity.
Qed.

Lemma journal_one_more (l : list JournalSend) (js : JournalSend) :
  l <> (l ++ [js])%list.
Proof.
  intros H. apply (f_equal length) in H. rewrite length_app in H.
  cbn in H. lia.
Qed.

Ltac plain_event_solve :=
  unfold plain_event; cbn [js_guild js_attributes];
  repeat split;
  repeat first [ rewrite lookup_insert_eq
               | rewrite lookup_insert_ne by discriminate
               | rewrite lookup_empty ];
  reflexivity.

Lemma member_update_journal
    (timestamp : N) (before after : Member) (w w' : World) (r : Result unit) :
  member_update download_link user_discrim StringBuilder_str
    timestamp before after w = (r, w') ->
  journal_log w' = journal_log w
  \/ exists js, journal_log w' = (journal_log w ++ [js])%list
                /\ plain_event (member_guild before) "person" js.
Proof.
  unfold member_update.
  destruct (member_nick after) as [n|] eqn:En;
    repeat case_bool_decide;
    cbn [andb avatar_url username nickname];
    unfold MemberChanges_bool; cbn [avatar_url username nickname];
    rewrite ?(bool_decide_eq_true_2 (is_Some (Some _))) by eauto;
    rewrite ?(bool_decide_eq_false_2 (is_Some None)) by (by intros [? ?]);
    cbn [orb negb andb];
    unfold bind, ret, lift, raise, sql, journal_send;
    try destruct (download_link (member_avatar_url after)) as [avatar|e];
    try destruct (re_match EXTENSION_REGEX (member_avatar_url after)) as [ext|];
    cbv beta iota; intros [= <- <-];
    cbn [journal_log set_journal_log set_sql_log];
    try (left; reflexivity);
    right; eexists; (split; [reflexivity|]); plain_event_solve.
Qed.

Lemma add_alt_journal
    (ctx : Context) (first_name second_name : string) (w w' : World)
    (r : Result unit) :
  add_alt find_user StringBuilder_str StringBuilder_bool
    ctx first_name second_name w = (r, w') ->
  journal_log w' = journal_log w
  \/ exists js, journal_log w' = (journal_log w ++ [js])%list
                /\ plain_event (ctx_guild ctx) "item_add" js.
Proof.
  unfold add_alt.
  destruct (find_user first_name (ctx_guild ctx)) as [u1|];
    destruct (find_user second_name (ctx_guild ctx)) as [u2|];
    destruct (StringBuilder_bool None _);
    unfold bind, ret, lift, raise, sql, journal_send, ctx_send, send,
      reaction_add, getattr_mention;
    cbv beta iota; intros [= <- <-];
    cbn [journal_log set_journal_log set_sql_log set_reactions set_outbox];
    try (left; reflexivity);
    right; eexists; (split; [reflexivity|]); plain_event_solve.
Qed.

Lemma del_alt_chain_journal
    (ctx : Context) (name : string) (w w' : World) (r : Result unit) :
  del_alt_chain find_user ctx name w = (r, w') ->
  journal_log w' = journal_log w
  \/ exists js, journal_log w' = (journal_log w ++ [js])%list
                /\ plain_event (ctx_guild ctx) "item_clear" js.
Proof.
  unfold del_alt_chain.
  destruct (find_user name (ctx_guild ctx)) as [u|];
    unfold bind, ret, sql, journal_send, ctx_send, send, reaction_add;
    cbv beta iota; intros [= <- <-];
    cbn [journal_log set_journal_log set_sql_log set_reactions set_outbox];
    try (left; reflexivity);
    right; eexists; (split; [reflexivity|]); plain_event_solve.
Qed.

Lemma new_event (l l' : list JournalSend) (js : JournalSend) (P : JournalSend -> Prop) :
  l' = (l ++ [js])%list ->
  l' = l \/ (exists js0, l' = (l ++ [js0])%list /\ P js0) ->
  P js.
Proof.
  intros Hl [Hsame|(js0 & Hl0 & HP)].
  - rewrite Hsame in Hl. by destruct (journal_one_more l js).
  - rewrite Hl in Hl0. apply app_inv_head in Hl0. by injection Hl0 as ->.
Qed.

Lemma plain_event_filter (g : Guild) (icon : string) (js : JournalSend)
    (sink : ChannelOutput.ChannelOutputListener) (path : string) :
  plain_event g icon js ->
  ChannelOutput.filter sink path (js_guild js) (js_content js) (js_attributes js)
  = Ok (bool_decide (ChannelOutput.channel sink ∈ guild_channels g)).
Proof. intros (-> & _). apply filter_some. Qed.

Lemma plain_event_dm (g : Guild) (icon : string) (js : JournalSend)
    (dm : DirectMessage.DirectMessageListener) (path : string) (w0 : World) :
  plain_event g icon js ->
  DirectMessage.handle dm path (js_guild js) (js_content js) (js_attributes js) w0
  = (Ok tt,
     set_outbox
       (outbox w0 ++
          [mkMessage (ToUser (DirectMessage.user dm))
             {[ "content" := VStr ("[" ++ guild_name g ++ "] " ++ js_content js) ]}])
       w0).
Proof.
  intros (-> & _ & He & Hf & Hfs). unfold DirectMessage.handle.
  by rewrite He, Hf, Hfs.
Qed.

(** X12. The event of a [member_update] suits both sinks. The filter of any
    channel sink answers, without an error, whether its channel is one of
    the guild of the member; the handler of any channel sink sends the
    content behind the bust in silhouette; the handler of any
    direct-message sink sends the content behind the name of that guild in
    brackets, with no other keyword. *)
Theorem X12_member_update_event_suits_sinks
    (timestamp : N) (before after : Member) (w w' : World) (r : Result unit)
    (js : JournalSend) :
  member_update download_link user_discrim StringBuilder_str
    timestamp before after w = (r, w') ->
  journal_log w' = (journal_log w ++ [js])%list ->
  (forall sink path,
      ChannelOutput.filter sink path (js_guild js) (js_content js)
        (js_attributes js)
      = Ok (bool_decide (ChannelOutput.channel sink
                         ∈ guild_channels (member_guild before))))
  /\ (forall sink path w0,
        ChannelOutput.handle sink path (js_guild js) (js_content js)
          (js_attributes js) w0
        = (Ok tt,
           set_outbox
             (outbox w0 ++
                [mkMessage (ToChannel (ChannelOutput.channel sink))
                   {[ "content" := VStr ("👤 " ++ js_content js) ]}]) w0))
  /\ (forall dm path w0,
        DirectMessage.handle dm path (js_guild js) (js_content js)
          (js_attributes js) w0
        = (Ok tt,
           set_outbox
             (outbox w0 ++
                [mkMessage (ToUser (DirectMessage.user dm))
                   {[ "content" :=
                        VStr ("[" ++ guild_name (member_guild before) ++ "] "
                              ++ js_content js) ]}]) w0)).
Proof.
  intros Hrun Hlog.
  pose proof (new_event _ _ js _ Hlog (member_update_journal _ _ _ _ _ _ Hrun))
    as Hplain.
  split; [|split].
  - intros sink path. by apply (plain_event_filter _ "person").
  - intros sink path w0. destruct Hplain as (_ & Hicon & _).
    apply (handle_icon sink path (js_content js) (js_attributes js)
             (js_guild js) "person" "👤" w0 Hicon).
    vm_compute. reflexivity.
  - intros dm path w0. by apply (plain_event_dm _ "person").
Qed.

(** X13. The events of [add_alt] and [del_alt_chain] are scoped to the
    guild of the command and carry no attachment: the filter of any channel
    sink answers without an error, and the handler of any direct-message
    sink, which does not look at the icon, sends the content behind the
    name of that guild in brackets. *)
Theorem X13_alt_events_reach_direct_messages
    (ctx : Context) (first_name second_name : string) (w w' : World)
    (r : Result unit) (js : JournalSend) :
  add_alt find_user StringBuilder_str StringBuilder_bool
    ctx first_name second_name w = (r, w')
  \/ del_alt_chain find_user ctx first_name w = (r, w') ->
  journal_log w' = (journal_log w ++ [js])%list ->
  (forall sink path,
      ChannelOutput.filter sink path (js_guild js) (js_content js)
        (js_attributes js)
      = Ok (bool_decide (ChannelOutput.channel sink
                         ∈ guild_channels (ctx_guild ctx))))
  /\ (forall dm path w0,
        DirectMessage.handle dm path (js_guild js) (js_content js)
          (js_attributes js) w0
        = (Ok tt,
           set_outbox
             (outbox w0 ++
                [mkMessage (ToUser (DirectMessage.user dm))
                   {[ "content" :=
                        VStr ("[" ++ guild_name (ctx_guild ctx) ++ "] "
                              ++ js_content js) ]}]) w0)).
Proof.
  intros [Hrun|Hrun] Hlog.
  - pose proof (new_event _ _ js _ Hlog (add_alt_journal _ _ _ _ _ _ Hrun))
      as Hplain.
    split; [intros; by apply (plain_event_filter _ "item_add")
           |intros; by apply (plain_event_dm _ "item_add")].
  - pose proof (new_event _ _ js _ Hlog (del_alt_chain_journal _ _ _ _ _ Hrun))
      as Hplain.
    split; [intros; by apply (plain_event_filter _ "item_clear")
           |intros; by apply (plain_event_dm _ "item_clear")].
Qed.

(** X16. Every run of [member_update], whatever the members and the
    helpers: it sends no message, adds no reaction and touches no stream;
    a run that raises leaves the world as it was, so an error never follows
    a write; and the database is written exactly when one event is handed
    to the journal. *)
Theorem X16_member_update_writes_iff_event
    (timestamp : N) (before after : Member) (w w' : World) (r : Result unit) :
  member_update download_link user_discrim StringBuilder_str
    timestamp before after w = (r, w') ->
  outbox w' = outbox w /\ streams w' = streams w /\ reactions w' = reactions w
  /\ (forall e, r = Raise e -> w' = w)
  /\ exists ops events,
       sql_log w' = (sql_log w ++ ops)%list
       /\ journal_log w' = (journal_log w ++ events)%list
       /\ length events <= 1
       /\ (ops = [] <-> events = []).
Proof.
  unfold member_update.
  destruct (member_nick after) as [n|] eqn:En;
    repeat case_bool_decide;
    cbn [andb avatar_url username nickname];
    unfold MemberChanges_bool; cbn [avatar_url username nickname];
    rewrite ?(bool_decide_eq_true_2 (is_Some (Some _))) by eauto;
    rewrite ?(bool_decide_eq_false_2 (is_Some None)) by (by intros [? ?]);
    cbn [orb negb andb];
    unfold bind, ret, lift, raise, sql, journal_send;
    try destruct (download_link (member_avatar_url after)) as [avatar|e];
    try destruct (re_match EXTENSION_REGEX (member_avatar_url after)) as [ext|];
    cbv beta iota; intros [= <- <-];
    rewrite ?set_sql_log_twice;
    cbn [outbox streams reactions sql_log journal_log
         set_journal_log set_sql_log app];
    rewrite <- ?app_assoc; cbn [app];
    (split; [reflexivity|]); (split; [reflexivity|]); (split; [reflexivity|]);
    (split; [intros e' He'; first [discriminate He' | reflexivity]|]);
    first
      [ exists [], []; rewrite !app_nil_r;
        (split; [reflexivity|]); (split; [reflexivity|]);
        (split; [cbn; lia|done])
      | eexists _, [_];
        (split; [reflexivity|]); (split; [reflexivity|]);
        (split; [cbn; lia|split; discriminate]) ].
Qed.

End AliasCogMore.

(** ** The further theorems at the sample data *)

Section WitnessesMore.

Import Sample SampleMore.

Lemma X2_witness :
  ({[ "icon" := VList [] ]} : gmap string PyVal) !! "icon" = Some (VList [])
  /\ VList [] <> VNone
  /\ (forall name, VList [] <> VStr name)
  /\ ChannelOutput.handle sink "/alias" (Some guild_G) "hello"
       {[ "icon" := VList [] ]} empty_world
     = (Raise (TypeError "unhashable type"), empty_world).
Proof.
  assert (H1 : ({[ "icon" := VList [] ]} : gmap string PyVal) !! "icon"
               = Some (VList [])) by reflexivity.
  assert (H2 : VList [] <> VNone) by discriminate.
  assert (H3 : forall name, VList [] <> VStr name) by (intros name; discriminate).
  split; [exact H1|]. split; [exact H2|]. split; [exact H3|].
  exact (X2_channel_handle_icon_not_a_string sink "/alias" "hello"
           {[ "icon" := VList [] ]} (Some guild_G) (VList []) empty_world
           H1 H2 H3).
Defined.

Lemma X3_witness :
  "embed" <> "icon"
  /\ ChannelOutput.handle sink "/alias" (Some guild_G) "hello"
       (<[ "embed" := VEmbed rich ]> ∅) empty_world
     = ChannelOutput.handle sink "/alias/x" None "hello" ∅ empty_world.
Proof.
  assert (H : "embed" <> "icon") by discriminate.
  split; [exact H|].
  destruct (X3_channel_handle_reads_icon_only sink "/alias" "hello" ∅
              (Some guild_G) None "/alias/x" "embed" (VEmbed rich) empty_world)
    as [Hother _].
  exact (Hother H).
Defined.

Lemma X4_witness :
  "icon" <> "embed" /\ "icon" <> "file" /\ "icon" <> "files"
  /\ DirectMessage.handle dm "/alts" (Some guild_G) "hello"
       (<[ "icon" := VStr "not-a-real-icon" ]> attachments) world
     = DirectMessage.handle dm "/alts/add" (Some guild_G) "hello"
         attachments world.
Proof.
  assert (H1 : "icon" <> "embed") by discriminate.
  assert (H2 : "icon" <> "file") by discriminate.
  assert (H3 : "icon" <> "files") by discriminate.
  split; [exact H1|]. split; [exact H2|]. split; [exact H3|].
  exact (X4_dm_handle_ignores_other_keys dm "/alts" "hello" attachments
           (Some guild_G) "/alts/add" "icon" (VStr "not-a-real-icon") world
           H1 H2 H3).
Defined.

Lemma X5_witness :
  let w' := snd (DirectMessage.handle dm "/alts" None "see attached"
                   attachments world) in
  DirectMessage.handle dm "/alts" None "see attached" attachments world
    = (Ok tt, w')
  /\ exists kw,
       outbox w' = (outbox world ++ [mkMessage (ToUser alice) kw])%list
       /\ is_Some (kw !! "content") /\ is_Some (kw !! "embed")
       /\ kw !! "icon" = None.
Proof.
  intros w'.
  assert (H : DirectMessage.handle dm "/alts" None "see attached"
                attachments world = (Ok tt, w'))
    by (vm_compute; reflexivity).
  split; [exact H|].
  destruct (X5_dm_payload_keys dm "/alts" "see attached" attachments None
              world w' H) as (kw & Hout & Hkeys).
  exists kw. split; [exact Hout|].
  split; [apply Hkeys; by left|].
  split; [apply Hkeys; right; split; [by left | by eexists]|].
  destruct (kw !! "icon") as [v|] eqn:E; [|reflexivity].
  exfalso. destruct (proj1 (Hkeys "icon") (ex_intro _ v E))
    as [H0|[[H0|[H0|H0]] _]]; discriminate H0.
Defined.

Lemma X6_witness :
  ({[ "files" := VNone ]} : gmap string PyVal) !! "file" = None
  /\ ({[ "files" := VNone ]} : gmap string PyVal) !! "files" = Some VNone
  /\ DirectMessage.handle dm "/alts" None "hello" {[ "files" := VNone ]} world
     = (Raise (TypeError "object is not iterable"), world).
Proof.
  assert (H1 : ({[ "files" := VNone ]} : gmap string PyVal) !! "file" = None)
    by reflexivity.
  assert (H2 : ({[ "files" := VNone ]} : gmap string PyVal) !! "files"
               = Some VNone) by reflexivity.
  split; [exact H1|]. split; [exact H2|].
  destruct (X6_dm_files_edge_cases dm "/alts" "hello" {[ "files" := VNone ]}
              None VNone world H1 H2) as [_ Hraise].
  exact (Hraise I).
Defined.

Lemma X7_witness :
  member_avatar bob = member_avatar bob_plain
  /\ member_name bob = member_name bob_plain
  /\ (member_nick bob = member_nick bob_plain \/ member_nick bob_plain = None)
  /\ Alias.member_update download_link user_discrim StringBuilder_str
       7 bob bob_plain empty_world = (Ok tt, empty_world).
Proof.
  assert (H1 : member_avatar bob = member_avatar bob_plain) by reflexivity.
  assert (H2 : member_name bob = member_name bob_plain) by reflexivity.
  assert (H3 : member_nick bob = member_nick bob_plain
               \/ member_nick bob_plain = None) by (right; reflexivity).
  split; [exact H1|]. split; [exact H2|]. split; [exact H3|].
  exact (X7_member_update_nothing_tracked download_link user_discrim
           StringBuilder_str 7 bob bob_plain empty_world H1 H2 H3).
Defined.

Lemma X8_witness :
  member_avatar alice = member_avatar alice_renamed
  /\ (member_name alice <> member_name alice_renamed
      \/ (member_nick alice <> member_nick alice_renamed
          /\ member_nick alice_renamed <> None))
  /\ exists js,
       Alias.member_update download_link user_discrim StringBuilder_str
         7 alice alice_renamed empty_world
       = (Ok tt,
          set_journal_log [js]
            (set_sql_log [AddUsername alice 7 "alicia";
                          AddNickname alice 7 "ally"] empty_world))
       /\ js_content js
          = "Member alice#0001 was updated: name: alicia, nick: ally".
Proof.
  assert (H1 : member_avatar alice = member_avatar alice_renamed)
    by reflexivity.
  assert (H2 : member_name alice <> member_name alice_renamed
               \/ (member_nick alice <> member_nick alice_renamed
                   /\ member_nick alice_renamed <> None))
    by (left; vm_compute; discriminate).
  split; [exact H1|]. split; [exact H2|].
  destruct (X8_member_update_without_avatar download_link user_discrim
              StringBuilder_str 7 alice alice_renamed empty_world H1 H2)
    as (js & Hrun & _ & _ & Hcontent & _).
  exists js. split; [exact Hrun | exact Hcontent].
Defined.

Lemma X9_witness :
  member_avatar alice <> member_avatar alice_dot
  /\ exists js,
       Alias.member_update download_link user_discrim StringBuilder_str
         7 alice alice_dot empty_world
       = (Ok tt,
          set_journal_log [js]
            (set_sql_log [AddAvatar alice 7 (VBytes []) "png"] empty_world))
       /\ js_attributes js !! "icon" = Some (VStr "person").
Proof.
  assert (H : member_avatar alice <> member_avatar alice_dot)
    by (vm_compute; discriminate).
  split; [exact H|].
  destruct (X9_member_update_with_avatar download_link user_discrim
              StringBuilder_str 7 alice alice_dot empty_world H)
    as [_ Hok].
  destruct (Hok (VBytes []) "png" "size=1024" eq_refl eq_refl
              ltac:(discriminate) eq_refl ltac:(discriminate) eq_refl)
    as (js & Hrun & _ & _ & _ & Hicon).
  exists js. split; [exact Hrun | exact Hicon].
Defined.

Lemma X10_witness :
  StringBuilder_bool None [] = false
  /\ (forall ops, ops <> [] -> StringBuilder_bool None ops = true)
  /\ find_user "carol" (Alias.ctx_guild ctx) = None
  /\ exists text,
       Alias.add_alt find_user StringBuilder_str StringBuilder_bool
         ctx "alice" "carol" empty_world
       = (Ok tt,
          set_reactions [(Alias.ctx_message ctx, FAIL)]
            (set_outbox
               [mkMessage (ToChannel (Alias.ctx_channel ctx))
                  {[ "embed" := VEmbed (mkEmbed Alias.dark_red (Some text)) ]}]
               empty_world)).
Proof.
  assert (H1 : StringBuilder_bool None [] = false) by reflexivity.
  assert (H2 : forall ops, ops <> [] -> StringBuilder_bool None ops = true)
    by (intros [|op ops] Hops; [by destruct Hops | reflexivity]).
  assert (H3 : find_user "carol" (Alias.ctx_guild ctx) = None) by reflexivity.
  split; [exact H1|]. split; [exact H2|]. split; [exact H3|].
  destruct (X10_add_alt_outcomes find_user StringBuilder_str StringBuilder_bool
              ctx "alice" "carol" empty_world H1 H2) as [Hfail _].
  exact (Hfail (or_intror H3)).
Defined.

Lemma X11_witness :
  find_user "carol" (Alias.ctx_guild ctx) = None
  /\ sql_log (snd (Alias.del_alt_chain find_user ctx "carol" empty_world)) = []
  /\ find_user "bob" (Alias.ctx_guild ctx) = Some bob
  /\ sql_log (snd (Alias.del_alt_chain find_user ctx "bob" empty_world))
     = [AllDeletePossibleAlts guild_G bob].
Proof.
  assert (H1 : find_user "carol" (Alias.ctx_guild ctx) = None) by reflexivity.
  assert (H2 : find_user "bob" (Alias.ctx_guild ctx) = Some bob) by reflexivity.
  destruct (X11_del_alt_chain_outcomes find_user ctx "carol" empty_world)
    as [Hnone _].
  destruct (X11_del_alt_chain_outcomes find_user ctx "bob" empty_world)
    as [_ Hsome].
  split; [exact H1|]. split; [by rewrite (Hnone H1)|].
  split; [exact H2|]. by rewrite (Hsome bob H2).
Defined.

Lemma X12_witness :
  let run := Alias.member_update download_link user_discrim StringBuilder_str
               7 alice alice_renamed empty_world in
  run = (Ok tt, snd run)
  /\ journal_log (snd run) = (journal_log empty_world ++ [renamed_event])%list
  /\ ChannelOutput.handle sink "/alias/member/update"
       (js_guild renamed_event) (js_content renamed_event)
       (js_attributes renamed_event) empty_world
     = (Ok tt,
        set_outbox
          [mkMessage (ToChannel logs)
             {[ "content" :=
                  VStr ("👤 " ++ "Member alice#0001 was updated: name: alicia, nick: ally") ]}]
          empty_world).
Proof.
  intros run.
  assert (H1 : run = (Ok tt, snd run)) by (vm_compute; reflexivity).
  assert (H2 : journal_log (snd run)
               = (journal_log empty_world ++ [renamed_event])%list)
    by (vm_compute; reflexivity).
  split; [exact H1|]. split; [exact H2|].
  destruct (X12_member_update_event_suits_sinks download_link user_discrim
              StringBuilder_str 7 alice alice_renamed empty_world (snd run)
              (Ok tt) renamed_event H1 H2) as (_ & Hchannel & _).
  exact (Hchannel sink "/alias/member/update" empty_world).
Defined.

Lemma X13_witness :
  let run := Alias.add_alt find_user StringBuilder_str StringBuilder_bool
               ctx "alice" "bob" empty_world in
  run = (Ok tt, snd run)
  /\ journal_log (snd run) = (journal_log empty_world ++ [alt_event])%list
  /\ DirectMessage.handle dm "/alias/alt/add"
       (js_guild alt_event) (js_content alt_event) (js_attributes alt_event)
       empty_world
     = (Ok tt,
        set_outbox
          [mkMessage (ToUser alice)
             {[ "content" :=
                  VStr ("[" ++ "Test Guild" ++ "] "
                        ++ "Added <@100> and <@101> as possible alt accounts.") ]}]
          empty_world).
Proof.
  intros run.
  assert (H1 : run = (Ok tt, snd run)) by (vm_compute; reflexivity).
  assert (H2 : journal_log (snd run)
               = (journal_log empty_world ++ [alt_event])%list)
    by (vm_compute; reflexivity).
  split; [exact H1|]. split; [exact H2|].
  destruct (X13_alt_events_reach_direct_messages find_user StringBuilder_str
              StringBuilder_bool ctx "alice" "bob" empty_world (snd run)
              (Ok tt) alt_event (or_introl H1) H2) as [_ Hdm].
  exact (Hdm dm "/alias/alt/add" empty_world).
Defined.

Lemma X14_witness :
  files_only !! "file" = None
  /\ files_only !! "files" = Some (VList (VFile <$> [report; notes]))
  /\ Forall (open_file world) [report; notes]
  /\ exists kw1 kw2 w1 w2 fs1 fs2,
       DirectMessage.handle dm "/alts" None "see attached" files_only world
       = (Ok tt, w1)
       /\ DirectMessage.handle dm_bob "/alts" None "see attached" files_only w1
          = (Ok tt, w2)
       /\ outbox w2 = [mkMessage (ToUser alice) kw1; mkMessage (ToUser bob) kw2]
       /\ kw1 !! "files" = Some (VList (VFile <$> fs1))
       /\ kw2 !! "files" = Some (VList (VFile <$> fs2))
       /\ Forall2 (duplicate_of world w2) [report; notes] fs1
       /\ Forall2 (duplicate_of world w2) [report; notes] fs2
       /\ NoDup (fp <$> (fs1 ++ fs2)%list).
Proof.
  assert (H1 : files_only !! "file" = None) by reflexivity.
  assert (H2 : files_only !! "files" = Some (VList (VFile <$> [report; notes])))
    by reflexivity.
  assert (H3 : Forall (open_file world) [report; notes])
    by (repeat constructor; by eexists).
  split; [exact H1|]. split; [exact H2|]. split; [exact H3|].
  exact (X14_two_dm_sinks_get_their_own_copies "/alts" "see attached"
           files_only dm dm_bob None [report; notes] world H1 H2 H3).
Defined.

Lemma X15_witness :
  Alias.re_match Alias.EXTENSION_REGEX ".png?size=1024" = Some "png"
  /\ all_chars lower "png" = true.
Proof.
  assert (H : Alias.re_match Alias.EXTENSION_REGEX ".png?size=1024" = Some "png")
    by reflexivity.
  split; [exact H|].
  destruct (proj1 (X15_extension_regex_matches ".png?size=1024" "png") H)
    as (_ & Hlower & _).
  exact Hlower.
Defined.

Lemma X16_witness :
  let run := Alias.member_update download_link user_discrim StringBuilder_str
               7 alice alice_after empty_world in
  run = (fst run, snd run)
  /\ (forall e, fst run = Raise e -> snd run = empty_world)
  /\ outbox (snd run) = outbox empty_world.
Proof.
  intros run.
  assert (H : run = (fst run, snd run)) by (vm_compute; reflexivity).
  split; [exact H|].
  destruct (X16_member_update_writes_iff_event download_link user_discrim
              StringBuilder_str 7 alice alice_after empty_world (snd run)
              (fst run) H) as (Hout & _ & _ & Hraise & _).
  split; [exact Hraise | exact Hout].
Defined.

End WitnessesMore.
